(** * Shallow embedding of the ftva_etl metadata engine

    This file models [ftva_etl/metadata/utils.py], [marc.py],
    [filemaker.py], [digital_data.py] and [mams_metadata.py].  Python
    strings are modelled as Stdlib [string] over ASCII characters; pymarc
    records as lists of fields; Python dicts as association lists with
    Python's insertion-order update semantics; raised exceptions as the
    [Err] branch of a small error monad. *)

From Stdlib Require Import String Ascii List Bool Arith Lia.
Import ListNotations.
Open Scope string_scope.

(* ------------------------------------------------------------------ *)
(** ** Python string primitives *)

Module Py.

(** [c in s] for a one-character [c]. *)
Fixpoint contains_char (c : ascii) (s : string) : bool :=
  match s with
  | EmptyString => false
  | String d s' => Ascii.eqb c d || contains_char c s'
  end.

(** [s.replace(c, "")] for a one-character [c]. *)
Fixpoint remove_char (c : ascii) (s : string) : string :=
  match s with
  | EmptyString => EmptyString
  | String d s' =>
      if Ascii.eqb c d then remove_char c s' else String d (remove_char c s')
  end.

(** [s.rstrip(chars)], the character set given as a predicate. *)
Fixpoint rstrip (p : ascii -> bool) (s : string) : string :=
  match s with
  | EmptyString => EmptyString
  | String c s' =>
      match rstrip p s' with
      | EmptyString => if p c then EmptyString else String c EmptyString
      | r => String c r
      end
  end.

(** [s.lstrip(chars)]. *)
Fixpoint lstrip (p : ascii -> bool) (s : string) : string :=
  match s with
  | EmptyString => EmptyString
  | String c s' => if p c then lstrip p s' else s
  end.

(** [s.strip(chars)]. *)
Definition strip (p : ascii -> bool) (s : string) : string :=
  lstrip p (rstrip p s).

(** Characters for which [str.isspace()] holds (ASCII range):
    \t \n \x0b \x0c \r, the separators \x1c-\x1f, and the space. *)
Definition is_space (c : ascii) : bool :=
  let n := nat_of_ascii c in
  ((9 <=? n)%nat && (n <=? 13)%nat) || ((28 <=? n)%nat && (n <=? 32)%nat).

(** Membership in an explicit character set given as a string. *)
Definition in_chars (cs : string) (c : ascii) : bool := contains_char c cs.

(** [string.punctuation]: the 32 printable ASCII characters that are
    neither letters, digits nor space (codes 33-47, 58-64, 91-96, 123-126). *)
Definition is_punctuation (c : ascii) : bool :=
  let n := nat_of_ascii c in
  ((33 <=? n)%nat && (n <=? 47)%nat) || ((58 <=? n)%nat && (n <=? 64)%nat)
  || ((91 <=? n)%nat && (n <=? 96)%nat) || ((123 <=? n)%nat && (n <=? 126)%nat).

Definition is_digit (c : ascii) : bool :=
  let n := nat_of_ascii c in ((48 <=? n)%nat && (n <=? 57)%nat).

Fixpoint all_chars (p : ascii -> bool) (s : string) : bool :=
  match s with
  | EmptyString => true
  | String c s' => p c && all_chars p s'
  end.

(** [s.isdigit()]: non-empty and every character a digit. *)
Definition isdigit (s : string) : bool :=
  match s with
  | EmptyString => false
  | _ => all_chars is_digit s
  end.

(** [s.lower()] on ASCII. *)
Definition lower_char (c : ascii) : ascii :=
  let n := nat_of_ascii c in
  if ((65 <=? n)%nat && (n <=? 90)%nat) then ascii_of_nat (n + 32)%nat else c.

Fixpoint lower (s : string) : string :=
  match s with
  | EmptyString => EmptyString
  | String c s' => String (lower_char c) (lower s')
  end.

(** [s.split(sep)] for a one-character separator. *)
Fixpoint split (sep : ascii) (s : string) : list string :=
  match s with
  | EmptyString => [EmptyString]
  | String c s' =>
      if Ascii.eqb c sep then EmptyString :: split sep s'
      else match split sep s' with
           | h :: t => String c h :: t
           | [] => [String c EmptyString]
           end
  end.

(** [sep.join(items)]. *)
Fixpoint join (sep : string) (items : list string) : string :=
  match items with
  | [] => EmptyString
  | [x] => x
  | x :: xs => x ++ sep ++ join sep xs
  end.

(** [s.startswith(p)]. *)
Definition startswith (s p : string) : bool := String.prefix p s.

(** [s.find(pat)], [None] standing for -1. *)
Fixpoint find_from (pat s : string) (i : nat) : option nat :=
  if String.prefix pat s then Some i
  else match s with
       | EmptyString => None
       | String _ s' => find_from pat s' (S i)
       end.

Definition find (s pat : string) : option nat := find_from pat s 0.

(** [s[i:]]. *)
Definition slice_from (s : string) (i : nat) : string :=
  substring i (String.length s - i) s.

End Py.

(* ------------------------------------------------------------------ *)
(** ** Exceptions and an error monad *)

Inductive exn : Type :=
| ValueError (msg : string)
| IndexError.

Inductive result (A : Type) : Type :=
| Ok (a : A)
| Err (e : exn).
Arguments Ok {A} a.
Arguments Err {A} e.

Definition bind {A B} (m : result A) (k : A -> result B) : result B :=
  match m with
  | Ok a => k a
  | Err e => Err e
  end.

Declare Scope result_scope.
Notation "x <- m ;; k" := (bind m (fun x => k))
  (at level 61, m at next level, right associativity) : result_scope.
Open Scope result_scope.

(* ------------------------------------------------------------------ *)
(** ** Python dicts with string keys *)

Definition dict (V : Type) := list (string * V).

Definition dict_get {V} (k : string) (d : dict V) : option V :=
  match find (fun kv => String.eqb (fst kv) k) d with
  | Some (_, v) => Some v
  | None => None
  end.

(** [d[k] = v]: overwrite in place if present, else append. *)
Definition dict_set {V} (k : string) (v : V) (d : dict V) : dict V :=
  if existsb (fun kv => String.eqb (fst kv) k) d
  then map (fun kv => if String.eqb (fst kv) k then (k, v) else kv) d
  else (d ++ [(k, v)])%list.

(** [d.update(e)] and [{**d, **e}]. *)
Definition dict_update {V} (d e : dict V) : dict V :=
  fold_left (fun acc kv => dict_set (fst kv) (snd kv) acc) e d.

Definition keys {V} (d : dict V) : list string := map fst d.

(* ------------------------------------------------------------------ *)
(** ** pymarc records *)

(** A MARC field: a control field (tag and fixed-length data) or a data
    field (tag, two one-character indicators, ordered (code, value)
    subfields). *)
Inductive Field : Type :=
| ControlField (tag : string) (data : string)
| DataField (tag : string) (indicator1 indicator2 : string)
            (subfields : list (string * string)).

Definition field_tag (f : Field) : string :=
  match f with
  | ControlField t _ => t
  | DataField t _ _ _ => t
  end.

Definition indicator1 (f : Field) : string :=
  match f with DataField _ i _ _ => i | ControlField _ _ => "" end.

Definition indicator2 (f : Field) : string :=
  match f with DataField _ _ i _ => i | ControlField _ _ => "" end.

(** [Field.get_subfields(code)]: the values of the subfields with that
    code, in order (none for a control field). *)
Definition get_subfields (code : string) (f : Field) : list string :=
  match f with
  | ControlField _ _ => []
  | DataField _ _ _ sfs =>
      map snd (filter (fun sf => String.eqb (fst sf) code) sfs)
  end.

(** [Field.get(code, default)]: the first such subfield value. *)
Definition field_get (code default : string) (f : Field) : string :=
  hd default (get_subfields code f).

(** [Field.value()]. *)
Definition field_value (f : Field) : string :=
  match f with
  | ControlField _ d => d
  | DataField _ _ _ sfs => Py.join " " (map snd sfs)
  end.

(** [Field.data]; [None] on a data field. *)
Definition field_data (f : Field) : string :=
  match f with ControlField _ d => d | DataField _ _ _ _ => "" end.

Definition Record := list Field.

(** [Record.get_fields(tag)]. *)
Definition get_fields (tag : string) (r : Record) : list Field :=
  filter (fun f => String.eqb (field_tag f) tag) r.

(** [Record.get(tag)]: the first field with that tag, if any. *)
Definition record_get (tag : string) (r : Record) : option Field :=
  find (fun f => String.eqb (field_tag f) tag) r.

(* ------------------------------------------------------------------ *)
(** ** utils.py *)

Section Utils.

(** [dateutil.parser.parse(s).strftime("%Y-%m-%d")], an external library:
    [None] stands for the [ValueError]/[ParserError] the code catches. *)
Variable dateutil_parse : string -> option string.

Definition date_trailing (c : ascii) : bool := Py.in_chars ".,;:!?" c.

Definition wrap_brackets (in_brackets : bool) (s : string) : string :=
  if in_brackets then "[" ++ s ++ "]" else s.

(** [parse_date]. *)
Definition parse_date (date_string : string) : string :=
  let in_brackets :=
    Py.contains_char "[" date_string && Py.contains_char "]" date_string in
  let date_string :=
    if in_brackets
    then Py.remove_char "]" (Py.remove_char "[" date_string)
    else date_string in
  let date_string := Py.rstrip date_trailing date_string in
  let date_string := Py.strip Py.is_space date_string in
  if (String.length date_string =? 4)%nat
     && (Py.isdigit date_string || Py.contains_char "-" date_string)
  then wrap_brackets in_brackets date_string
  else
    let formatted_date :=
      match dateutil_parse date_string with
      | Some d => d
      | None => date_string
      end in
    wrap_brackets in_brackets formatted_date.

End Utils.

(** [item.rstrip(string.punctuation + " ").strip("[] ")]. *)
Definition punct_or_space (c : ascii) : bool :=
  Py.is_punctuation c || Ascii.eqb c " ".

Definition bracket_or_space (c : ascii) : bool := Py.in_chars "[] " c.

Definition strip_item (item : string) : string :=
  Py.strip bracket_or_space (Py.rstrip punct_or_space item).

(** [strip_whitespace_and_punctuation]. *)
Definition strip_whitespace_and_punctuation (items : list string)
  : list string :=
  map strip_item items.

(** [cleanup_production_type]. *)
Definition cleanup_production_type (production_type : string) : list string :=
  map (Py.strip Py.is_space) (Py.split "013" (Py.lower production_type)).

(** [_is_inventory_number_match]. *)
Definition inv_no_prefixes : list string :=
  ["DVD"; "HFA"; "VA"; "VD"; "XFE"; "XFF"; "XVE"; "ZVB"].

Definition call_no_suffixes : list string := [" M"; " R"; " T"].

Definition is_inventory_number_match (inventory_number call_number : string)
  : bool :=
  if String.eqb inventory_number call_number then true
  else existsb (fun prefix =>
         Py.startswith inventory_number prefix
         && existsb (fun suffix =>
              String.eqb (inventory_number ++ suffix) call_number)
              call_no_suffixes)
       inv_no_prefixes.

(** [filter_by_inventory_number_and_library]: the inner loop over the AVA
    fields of one record; [Ok true] when the record is kept (the [break]),
    and [IndexError] from [get_subfields(...)[0]] on a missing subfield. *)
Fixpoint record_matches (inventory_number : string) (fields_ava : list Field)
  : result bool :=
  match fields_ava with
  | [] => Ok false
  | field_ava :: rest =>
      match get_subfields "b" field_ava with
      | [] => Err IndexError
      | b :: _ =>
          let library_code := Py.lower b in
          match get_subfields "d" field_ava with
          | [] => Err IndexError
          | call_number :: _ =>
              if String.eqb library_code "ftva"
                 && is_inventory_number_match inventory_number call_number
              then Ok true
              else record_matches inventory_number rest
          end
      end
  end.

Fixpoint filter_by_inventory_number_and_library
  (records : list Record) (inventory_number : string) : result (list Record) :=
  match records with
  | [] => Ok []
  | record :: rest =>
      keep <- record_matches inventory_number (get_fields "AVA" record) ;;
      others <- filter_by_inventory_number_and_library rest inventory_number ;;
      Ok (if keep then record :: others else others)
  end.

(* ------------------------------------------------------------------ *)
(** ** marc.py *)

(** [get_record_id]. *)
Definition get_record_id (marc_record : Record) : string :=
  match record_get "001" marc_record with
  | Some field_001 => field_value field_001
  | None => ""
  end.

Definition get_bib_id (marc_record : Record) : string :=
  get_record_id marc_record.

(** *** Dates *)

Definition indicator_priority : list string := ["2"; "1"; "4"; "0"; "3"].

Definition qualifier_map (indicator : string) : string :=
  if String.eqb indicator "2" then "distribution_date"
  else if String.eqb indicator "1" then "release_broadcast_date"
  else if String.eqb indicator "4" then "copyright_notice_date"
  else if String.eqb indicator "0" then "production_date"
  else if String.eqb indicator "3" then "manufacture_date"
  else "".

(** The loop over the 260 fields: the first field with both indicators
    blank and a $c gives (date, qualifier). *)
Fixpoint first_260_date (fields_260 : list Field) : option (string * string) :=
  match fields_260 with
  | [] => None
  | field :: rest =>
      if String.eqb (indicator1 field) " " && String.eqb (indicator2 field) " "
      then match get_subfields "c" field with
           | d :: _ => Some (Py.strip Py.is_space d, "release_broadcast_date")
           | [] => first_260_date rest
           end
      else first_260_date rest
  end.

(** The inner loop over the 264 fields for one second indicator. *)
Fixpoint first_264_date (indicator : string) (fields_264 : list Field)
  : option (string * string) :=
  match fields_264 with
  | [] => None
  | field :: rest =>
      if String.eqb (indicator1 field) " "
         && String.eqb (indicator2 field) indicator
      then match get_subfields "c" field with
           | d :: _ => Some (Py.strip Py.is_space d, qualifier_map indicator)
           | [] => first_264_date indicator rest
           end
      else first_264_date indicator rest
  end.

(** The outer loop over [indicator_priority]. *)
Fixpoint first_by_priority (indicators : list string) (fields_264 : list Field)
  : option (string * string) :=
  match indicators with
  | [] => None
  | indicator :: rest =>
      match first_264_date indicator fields_264 with
      | Some r => Some r
      | None => first_by_priority rest fields_264
      end
  end.

(** [_get_date_from_bib]: the returned dict {date, qualifier} as a pair. *)
Definition get_date_from_bib (bib_record : Record) : string * string :=
  match first_260_date (get_fields "260" bib_record) with
  | Some r => r
  | None =>
      let fields_264 := get_fields "264" bib_record in
      if negb (existsb (fun field => String.eqb (indicator1 field) " ") fields_264)
      then ("", "")
      else match first_by_priority indicator_priority fields_264 with
           | Some r => r
           | None => ("", "")
           end
  end.

(** [get_date_info].  The dict returned by [_get_date_from_bib] is never
    empty, so its [if not date_dict] branch is never taken. *)
Definition get_date_info (dateutil_parse : string -> option string)
  (bib_record : Record) : dict string :=
  let '(date, qualifier) := get_date_from_bib bib_record in
  let qualifier :=
    if String.eqb qualifier "" then "release_broadcast_date" else qualifier in
  [(qualifier, parse_date dateutil_parse date)].

(** *** Titles *)

(** [_get_first_stripped]. *)
Definition get_first_stripped (subfields : list string) : string :=
  match strip_whitespace_and_punctuation subfields with
  | s :: _ => s
  | [] => ""
  end.

Definition truthy (s : string) : bool := negb (String.eqb s "").

(** [get_title_info]. *)
Definition get_title_info (bib_record : Record) (is_series : bool)
  : result (dict string) :=
  let record_id := get_record_id bib_record in
  match record_get "245" bib_record with
  | None =>
      Err (ValueError ("No 245 field found in bib record " ++ record_id ++ "."))
  | Some title_statement =>
      let main_title := get_first_stripped (get_subfields "a" title_statement) in
      let remainder_of_title :=
        get_first_stripped (get_subfields "b" title_statement) in
      let name_of_part := get_first_stripped (get_subfields "p" title_statement) in
      let number_of_part :=
        get_first_stripped (get_subfields "n" title_statement) in
      if negb (truthy main_title) then
        Err (ValueError ("No 245 $a found in bib record " ++ record_id ++ "."))
      else
        let main_title :=
          if truthy remainder_of_title
          then Py.join ". " [main_title; remainder_of_title] else main_title in
        let titles : dict string := [] in
        (* CASE 5 *)
        let titles :=
          if truthy main_title && negb (truthy name_of_part)
             && negb (truthy number_of_part)
          then dict_set "title" main_title titles else titles in
        (* CASE 4 *)
        let titles :=
          if negb is_series && truthy main_title && truthy number_of_part
             && negb (truthy name_of_part)
          then dict_set "title" (Py.join ". " [main_title; number_of_part]) titles
          else titles in
        (* CASE 3 *)
        let titles :=
          if is_series && truthy main_title && truthy number_of_part
             && negb (truthy name_of_part)
          then dict_set "episode_title" number_of_part
                 (dict_set "series_title" main_title
                   (dict_set "title" (Py.join ". " [main_title; number_of_part])
                      titles))
          else titles in
        (* CASE 2 *)
        let titles :=
          if truthy main_title && truthy name_of_part
             && negb (truthy number_of_part)
          then dict_set "episode_title" name_of_part
                 (dict_set "series_title" main_title
                   (dict_set "title" (Py.join ". " [main_title; name_of_part])
                      titles))
          else titles in
        (* CASE 1 *)
        let titles :=
          if truthy main_title && truthy name_of_part && truthy number_of_part
          then dict_set "episode_title" (Py.join ". " [name_of_part; number_of_part])
                 (dict_set "series_title" main_title
                   (dict_set "title"
                      (Py.join ". " [main_title; name_of_part; number_of_part])
                      titles))
          else titles in
        Ok titles
  end.

(** *** Creators *)

(** The spaCy model, an external library: the (text, label) entity spans
    it recognises in a string. *)
Definition NerModel := string -> list (string * string).

(** [_get_creator_info_from_bib]. *)
Definition get_creator_info_from_bib (bib_record : Record) : list string :=
  match record_get "245" bib_record with
  | Some f245 => Py.split ";" (field_get "c" "" f245)
  | None => []
  end.

Definition attribution_phrases : list string :=
  ["directed by"; "director"; "a film by"; "supervised by"].

(** The loop over [attribution_phrases], with its [break]. *)
Fixpoint creator_string_of (source_string : string) (phrases : list string)
  : string :=
  match phrases with
  | [] => ""
  | phrase :: rest =>
      match Py.find (Py.lower source_string) phrase with
      | Some i =>
          Py.strip Py.is_space
            (Py.slice_from source_string (i + String.length phrase))
      | None => creator_string_of source_string rest
      end
  end.

(** [_parse_creators]. *)
Definition parse_creators (source_string : string) (model : NerModel)
  : list string :=
  let creator_string := creator_string_of source_string attribution_phrases in
  if negb (truthy creator_string) then []
  else map fst (filter (fun ent => String.eqb (snd ent) "PERSON")
                  (model creator_string)).

(** [get_creators]. *)
Definition get_creators (bib_record : Record) (model : NerModel) : list string :=
  flat_map (fun creator => parse_creators creator model)
    (get_creator_info_from_bib bib_record).

(** *** Languages *)

(** [_get_language_code_from_bib]. *)
Definition get_language_code_from_bib (bib_record : Record) : string :=
  match record_get "008" bib_record with
  | Some field_008 =>
      let d := field_data field_008 in
      if truthy d && (String.length d =? 40)%nat then substring 35 3 d else ""
  | None => ""
  end.

(** [get_language_name]; the map is the packaged [language_map.json]. *)
Definition get_language_name (language_map : dict string) (bib_record : Record)
  : string :=
  match dict_get (get_language_code_from_bib bib_record) language_map with
  | Some name => name
  | None => ""
  end.

(* ------------------------------------------------------------------ *)
(** ** filemaker.py *)

(** The fields of a Filemaker record the code reads. *)
Record FMRecord : Type := {
  inventory_id : string;
  inventory_no : string;
  production_type : string
}.

Definition get_inventory_id (fm_record : FMRecord) : string :=
  inventory_id fm_record.

Definition get_inventory_number (fm_record : FMRecord) : string :=
  inventory_no fm_record.

Definition series_keywords : list string :=
  ["television series"; "mini-series"; "serials"; "news"].

(** [is_series_production_type]: [keyword in production_type] is
    membership in the list of segments. *)
Definition is_series_production_type (fm_record : FMRecord) : bool :=
  let production_type := cleanup_production_type (production_type fm_record) in
  existsb (fun keyword => existsb (String.eqb keyword) production_type)
    series_keywords.

(* ------------------------------------------------------------------ *)
(** ** digital_data.py *)

(** Values held in a Digital Data record and in the output metadata. *)
Inductive pyval : Type :=
| VStr (s : string)
| VInt (n : nat)
| VList (l : list string).

Fixpoint str_list_eqb (l l' : list string) : bool :=
  match l, l' with
  | [], [] => true
  | x :: xs, y :: ys => String.eqb x y && str_list_eqb xs ys
  | _, _ => false
  end.

(** Python [==] between such values. *)
Definition pyval_eqb (v w : pyval) : bool :=
  match v, w with
  | VStr s, VStr t => String.eqb s t
  | VInt n, VInt m => Nat.eqb n m
  | VList l, VList l' => str_list_eqb l l'
  | _, _ => false
  end.

Definition dd_get (k : string) (default : pyval) (dd : dict pyval) : pyval :=
  match dict_get k dd with Some v => v | None => default end.

Definition get_file_name (dd : dict pyval) := dd_get "file_name" (VStr "") dd.
Definition get_folder_name (dd : dict pyval) :=
  dd_get "file_folder_name" (VStr "") dd.
Definition get_sub_folder_name (dd : dict pyval) :=
  dd_get "sub_folder_name" (VStr "") dd.
Definition get_uuid (dd : dict pyval) := dd_get "uuid" (VStr "") dd.
Definition get_asset_type (dd : dict pyval) := dd_get "asset_type" (VStr "") dd.
Definition get_media_type (dd : dict pyval) := dd_get "media_type" (VStr "") dd.
Definition get_audio_class (dd : dict pyval) :=
  dd_get "audio_class" (VStr "") dd.

Definition get_dcp_info (dd : dict pyval) : dict pyval :=
  [("file_name", VStr ""); ("folder_name", get_folder_name dd);
   ("sub_folder_name", get_sub_folder_name dd)].

Definition get_dpx_info (dd : dict pyval) : dict pyval :=
  [("file_name", VStr ""); ("folder_name", get_folder_name dd)].

(* ------------------------------------------------------------------ *)
(** ** mams_metadata.py *)

Definition map_vstr (d : dict string) : dict pyval :=
  map (fun kv => (fst kv, VStr (snd kv))) d.

(** [get_mams_metadata].  The external collaborators are parameters:
    the spaCy model (loaded by [spacy.load]), [dateutil] and the language
    table. *)
Definition get_mams_metadata
  (nlp_model : NerModel) (dateutil_parse : string -> option string)
  (language_map : dict string)
  (bib_record : Record) (filemaker_record : FMRecord)
  (digital_data_record : dict pyval) (match_asset_uuid : option string)
  : result (dict pyval) :=
  let is_series := is_series_production_type filemaker_record in
  titles <- get_title_info bib_record is_series ;;
  let date_info := get_date_info dateutil_parse bib_record in
  let base : dict pyval :=
    [("alma_bib_id", VStr (get_bib_id bib_record));
     ("inventory_id", VStr (get_inventory_id filemaker_record));
     ("uuid", get_uuid digital_data_record);
     ("inventory_numbers", VList [get_inventory_number filemaker_record]);
     ("creators", VList (get_creators bib_record nlp_model));
     ("language", VStr (get_language_name language_map bib_record));
     ("file_name", get_file_name digital_data_record);
     ("asset_type", get_asset_type digital_data_record);
     ("media_type", get_media_type digital_data_record);
     ("audio_class", get_audio_class digital_data_record)] in
  let metadata := dict_update (dict_update base (map_vstr titles))
                    (map_vstr date_info) in
  let metadata :=
    match match_asset_uuid with
    | Some u => if truthy u then dict_set "match_asset" (VStr u) metadata
                else metadata
    | None => metadata
    end in
  let file_type := dd_get "file_type" (VStr "") digital_data_record in
  let metadata :=
    if pyval_eqb file_type (VStr "DCP")
    then dict_update metadata (get_dcp_info digital_data_record)
    else if pyval_eqb file_type (VStr "DPX")
    then dict_update metadata (get_dpx_info digital_data_record)
    else metadata in
  Ok metadata.

(** Occurrences of a character in a string. *)
Fixpoint count_char (c : ascii) (s : string) : nat :=
  match s with
  | EmptyString => 0
  | String d s' => (if Ascii.eqb c d then 1 else 0) + count_char c s'
  end.

(** One AVA field as the inner loop of
    [filter_by_inventory_number_and_library] tests it, when both
    subfields are present. *)
Definition ava_field_matches (inventory_number : string) (f : Field) : bool :=
  match get_subfields "b" f, get_subfields "d" f with
  | b :: _, call_number :: _ =>
      String.eqb (Py.lower b) "ftva"
      && is_inventory_number_match inventory_number call_number
  | _, _ => false
  end.

(* ================================================================== *)
(** * Properties *)

(** A string that is empty or ends in a character outside [p]. *)
Definition ends_outside (p : ascii -> bool) (s : string) : Prop :=
  s = "" \/ exists r c, s = r ++ String c "" /\ p c = false.

(** A string that is empty or starts with a character outside [p]. *)
Definition starts_outside (p : ascii -> bool) (s : string) : Prop :=
  s = "" \/ exists c t, s = String c t /\ p c = false.

(** What one item of [strip_whitespace_and_punctuation] is: [s] with a
    tail of ASCII punctuation and spaces removed and then a head of
    square brackets and spaces removed; the result neither starts with a
    bracket or space nor ends with punctuation or a space. *)
Definition stripped_form (s r : string) : Prop :=
  exists pre post,
    s = pre ++ r ++ post
    /\ Py.all_chars bracket_or_space pre = true
    /\ Py.all_chars punct_or_space post = true
    /\ starts_outside bracket_or_space r
    /\ ends_outside punct_or_space r.

Definition date_bib_264 : Record :=
  [ControlField "001" "9912";
   DataField "264" " " "1" [("c", "1999.")];
   DataField "264" " " "2" [("c", "[2000]")]].

Definition date_bib_260 : Record :=
  (date_bib_264 ++ [DataField "260" " " " " [("c", " [2023] ")]])%list.

(** The main title as [get_title_info] builds it: the first normalized $a,
    followed by the first normalized $b joined with [". "] when present. *)
Definition full_main_title (title_statement : Field) : string :=
  let main := get_first_stripped (get_subfields "a" title_statement) in
  let remainder := get_first_stripped (get_subfields "b" title_statement) in
  if String.eqb remainder "" then main else main ++ ". " ++ remainder.

Definition title_bib_main : Record :=
  [ControlField "001" "9913"; DataField "245" "1" "0" [("a", "Main Title /")]].

Definition title_bib_parts : Record :=
  [ControlField "001" "9914";
   DataField "245" "1" "0"
     [("a", "Main Title"); ("b", "remainder :"); ("p", "[Name of Part]");
      ("n", "Number of Part . ")]].

Definition title_bib_246 : Record :=
  [ControlField "001" "9915";
   DataField "245" "1" "0" [("a", "Main Title")];
   DataField "246" "0" " " [("a", "Alternative Title")]].

Definition drop_246 (bib_record : Record) : Record :=
  filter (fun f => negb (String.eqb (field_tag f) "246")) bib_record.

Definition title_key (k : string) : Prop :=
  k = "title" \/ k = "series_title" \/ k = "episode_title".

Definition fm_news : FMRecord :=
  {| inventory_id := "42"; inventory_no := "DVD123";
     production_type := "NEWS" |}.

(** A four-character year as [parse_date] keeps it: all digits or with a
    hyphen, no square bracket, no surrounding whitespace and no trailing
    [.,;:!?] (so that its normalization leaves it unchanged). *)
Definition year_like (y : string) : Prop :=
  exists a b c d, y = String a (String b (String c (String d "")))
    /\ (Py.isdigit y = true \/ Py.contains_char "-" y = true)
    /\ Py.contains_char "[" y = false /\ Py.contains_char "]" y = false
    /\ Py.is_space a = false /\ Py.is_space d = false
    /\ date_trailing d = false.

Definition date_qualifier (k : string) : Prop :=
  In k ["release_broadcast_date"; "distribution_date"; "copyright_notice_date";
        "production_date"; "manufacture_date"].

Ltac not_match_asset :=
  unfold title_key, date_qualifier in *; simpl in *;
  intuition discriminate.

Definition dd_dcp : dict pyval :=
  [("file_type", VStr "DCP"); ("file_name", VStr "reel1.mxf");
   ("file_folder_name", VStr "PKG"); ("uuid", VStr "u-1")].

Definition title_bib_number : Record :=
  [ControlField "001" "9921";
   DataField "245" "1" "0" [("a", "Main Title"); ("n", "Part 2.")]].

Definition date_bib_other : Record :=
  [ControlField "001" "9922";
   DataField "260" "1" " " [("c", "1950")];
   DataField "264" " " "9" [("c", "1960")];
   DataField "264" " " "1" [("a", "Los Angeles")]].

Definition ava_records : list Record :=
  [[ControlField "001" "9941";
    DataField "AVA" " " " " [("b", "FTVA"); ("d", "DVD123 T")]];
   [ControlField "001" "9942";
    DataField "AVA" " " " " [("b", "YRL"); ("d", "DVD123")]]].

Ltac key_distinct :=
  unfold title_key, date_qualifier in *; simpl in *; intuition (subst; discriminate).

(** ** String lemmas *)

Lemma str_app_assoc (s1 s2 s3 : string) :
  s1 ++ (s2 ++ s3) = (s1 ++ s2) ++ s3.
Proof. induction s1 as [|c s1 IH]; simpl; [reflexivity | now rewrite IH]. Qed.

Lemma str_app_nil_r (s : string) : s ++ "" = s.
Proof. induction s as [|c s IH]; simpl; [reflexivity | now rewrite IH]. Qed.

Lemma rstrip_spec (p : ascii -> bool) (s : string) :
  exists post, s = Py.rstrip p s ++ post /\ Py.all_chars p post = true
               /\ ends_outside p (Py.rstrip p s).
Proof.
  induction s as [|c s IH]; simpl.
  - exists ""; repeat split; left; reflexivity.
  - destruct IH as (post & Hs & Hpost & Hend).
    destruct (Py.rstrip p s) as [|d t] eqn:Hr.
    + destruct (p c) eqn:Hc.
      * exists (String c post); simpl; rewrite Hc, Hpost; simpl.
        rewrite Hs; repeat split; left; reflexivity.
      * exists post; simpl; rewrite Hs; repeat split; [assumption|].
        right; exists "", c; split; [reflexivity | assumption].
    + exists post; simpl; rewrite Hs; repeat split; [assumption|].
      right; destruct Hend as [Hnil | (r & c' & Hrc & Hc')];
        [discriminate|].
      exists (String c r), c'; rewrite Hrc; split; [reflexivity | assumption].
Qed.

Lemma lstrip_spec (p : ascii -> bool) (s : string) :
  exists pre, s = pre ++ Py.lstrip p s /\ Py.all_chars p pre = true
              /\ starts_outside p (Py.lstrip p s).
Proof.
  induction s as [|c s IH]; simpl.
  - exists ""; repeat split; left; reflexivity.
  - destruct (p c) eqn:Hc.
    + destruct IH as (pre & Hs & Hpre & Hst).
      exists (String c pre); simpl; rewrite Hc, Hpre, <- Hs.
      repeat split; assumption.
    + exists ""; repeat split; right; exists c, s; split; [reflexivity|assumption].
Qed.

Lemma rstrip_last_outside (p : ascii -> bool) (r : string) (c : ascii) :
  p c = false -> Py.rstrip p (r ++ String c "") = r ++ String c "".
Proof.
  intros Hc; induction r as [|d r IH]; simpl.
  - now rewrite Hc.
  - rewrite IH; destruct r; reflexivity.
Qed.

Lemma rstrip_ends_outside (p : ascii -> bool) (s : string) :
  ends_outside p s -> Py.rstrip p s = s.
Proof.
  intros [-> | (r & c & -> & Hc)]; [reflexivity|].
  now apply rstrip_last_outside.
Qed.

Lemma lstrip_keeps_last (p : ascii -> bool) (r : string) (c : ascii) :
  Py.lstrip p (r ++ String c "") = ""
  \/ exists r', Py.lstrip p (r ++ String c "") = r' ++ String c "".
Proof.
  induction r as [|d r IH]; simpl.
  - destruct (p c); [left; reflexivity | right; exists ""; reflexivity].
  - destruct (p d); [exact IH|].
    right; exists (String d r); reflexivity.
Qed.

Lemma lstrip_ends_outside (p q : ascii -> bool) (s : string) :
  ends_outside q s -> ends_outside q (Py.lstrip p s).
Proof.
  intros [-> | (r & c & -> & Hc)]; [left; reflexivity|].
  destruct (lstrip_keeps_last p r c) as [H | (r' & H)]; rewrite H;
    [left; reflexivity | right; exists r', c; split; [reflexivity|assumption]].
Qed.

Lemma bracket_or_space_punct (c : ascii) :
  bracket_or_space c = true -> punct_or_space c = true.
Proof.
  unfold bracket_or_space, punct_or_space, Py.in_chars; simpl.
  intros H.
  destruct (Ascii.eqb_spec c "["); [subst; reflexivity|].
  destruct (Ascii.eqb_spec c "]"); [subst; reflexivity|].
  destruct (Ascii.eqb_spec c " "); [subst; reflexivity|].
  discriminate.
Qed.

Lemma ends_outside_weaken (p q : ascii -> bool) (s : string) :
  (forall c, q c = true -> p c = true) ->
  ends_outside p s -> ends_outside q s.
Proof.
  intros Hpq [-> | (r & c & -> & Hc)]; [left; reflexivity|].
  right; exists r, c; split; [reflexivity|].
  destruct (q c) eqn:Hq; [rewrite (Hpq c Hq) in Hc; discriminate | reflexivity].
Qed.

Lemma strip_item_stripped_form (s : string) : stripped_form s (strip_item s).
Proof.
  unfold strip_item, Py.strip.
  destruct (rstrip_spec punct_or_space s) as (post & Hs & Hpost & Hend).
  set (r1 := Py.rstrip punct_or_space s) in *.
  rewrite (rstrip_ends_outside bracket_or_space r1)
    by (eapply ends_outside_weaken; [apply bracket_or_space_punct | exact Hend]).
  destruct (lstrip_spec bracket_or_space r1) as (pre & Hr1 & Hpre & Hst).
  exists pre, post; repeat split; try assumption.
  - rewrite Hs at 1; rewrite Hr1 at 1; now rewrite str_app_assoc.
  - now apply lstrip_ends_outside.
Qed.

(** ** Text Normalizer *)

(** Claim C5 (counterexample): the normalizer strips every trailing ASCII
    punctuation character, not only [.,;:!?]: a trailing hyphen and a
    closing parenthesis are removed. *)
Lemma strip_whitespace_and_punctuation_removes_more :
  strip_whitespace_and_punctuation ["abc-"; "Pilot (1999)"]
    = ["abc"; "Pilot (1999"]
  /\ Py.in_chars ".,;:!?" "-" = false
  /\ Py.in_chars ".,;:!?" ")" = false.
Proof. repeat split; reflexivity. Qed.

(** Claim C5 (amended): for every list of strings,
    [strip_whitespace_and_punctuation] returns a list of the same length
    and order whose element at each position is the input element with
    its trailing run of [string.punctuation] characters and spaces removed
    and then its leading run of square brackets and spaces removed; the
    result neither starts with a bracket or space nor ends with
    punctuation or a space.  The function is total. *)
Theorem strip_whitespace_and_punctuation_spec (items : list string) :
  length (strip_whitespace_and_punctuation items) = length items
  /\ forall i s, nth_error items i = Some s ->
     exists r, nth_error (strip_whitespace_and_punctuation items) i = Some r
               /\ stripped_form s r.
Proof.
  unfold strip_whitespace_and_punctuation; split.
  - apply length_map.
  - intros i s Hi; exists (strip_item s); split.
    + now rewrite nth_error_map, Hi.
    + apply strip_item_stripped_form.
Qed.

(** ** Inventory Matcher *)

(** Claim C8: [_is_inventory_number_match] holds exactly when the two
    numbers are equal, or the inventory number starts with one of the
    fixed prefixes and appending one of the fixed suffixes gives the call
    number; with the three examples of the spec. *)
Theorem is_inventory_number_match_spec :
  (forall inventory_number call_number,
      is_inventory_number_match inventory_number call_number = true <->
      inventory_number = call_number
      \/ exists prefix suffix,
           In prefix inv_no_prefixes
           /\ Py.startswith inventory_number prefix = true
           /\ In suffix call_no_suffixes
           /\ inventory_number ++ suffix = call_number)
  /\ is_inventory_number_match "DVD123" "DVD123 T" = true
  /\ is_inventory_number_match "ABC" "ABC" = true
  /\ is_inventory_number_match "ABC" "DEF" = false.
Proof.
  repeat split; try reflexivity.
  - unfold is_inventory_number_match; intros H.
    destruct (String.eqb_spec inventory_number call_number) as [Heq|Hne];
      [now left|right].
    apply existsb_exists in H as (prefix & Hin & Hp).
    apply andb_true_iff in Hp as [Hstart Hsuf].
    apply existsb_exists in Hsuf as (suffix & Hsin & Hs).
    apply String.eqb_eq in Hs.
    now exists prefix, suffix.
  - unfold is_inventory_number_match; intros [Heq | (prefix & suffix & Hin & Hs & Hsin & Happ)].
    + subst; now rewrite String.eqb_refl.
    + destruct (String.eqb inventory_number call_number); [reflexivity|].
      apply existsb_exists; exists prefix; split; [assumption|].
      rewrite Hs, andb_true_l; apply existsb_exists; exists suffix; split;
        [assumption | now apply String.eqb_eq].
Qed.

(** Claim C3 (counterexample): a production type whose only segment is
    ["television series (drama)"] contains the substring
    ["television series"] but is not classified as a series. *)
Lemma is_series_substring_counterexample :
  let fm := {| inventory_id := "1"; inventory_no := "DVD1";
               production_type := "TELEVISION SERIES (DRAMA)" |} in
  cleanup_production_type (production_type fm) = ["television series (drama)"]
  /\ Py.find "television series (drama)" "television series" = Some 0
  /\ is_series_production_type fm = false.
Proof. repeat split; reflexivity. Qed.

(** Claim C3 (amended): after lower-casing, splitting on carriage returns
    and trimming, [is_series_production_type] holds exactly when some
    segment is equal to one of ["television series"], ["mini-series"],
    ["serials"], ["news"] (so ["newsreels"] does not count). *)
Theorem is_series_production_type_spec (fm : FMRecord) :
  is_series_production_type fm = true <->
  exists segment, In segment (cleanup_production_type (production_type fm))
                  /\ In segment series_keywords.
Proof.
  unfold is_series_production_type; split.
  - intros H; apply existsb_exists in H as (kw & Hkw & H).
    apply existsb_exists in H as (seg & Hseg & Heq).
    apply String.eqb_eq in Heq; subst; now exists seg.
  - intros (seg & Hseg & Hkw); apply existsb_exists; exists seg; split;
      [assumption|].
    apply existsb_exists; exists seg; split; [assumption | apply String.eqb_refl].
Qed.

(** ** Date Resolver *)

Lemma first_260_date_none (l : list Field) :
  (forall g, In g l -> indicator1 g = " " -> indicator2 g = " " ->
             get_subfields "c" g = []) ->
  first_260_date l = None.
Proof.
  induction l as [|g l IH]; intros H; simpl; [reflexivity|].
  destruct (String.eqb_spec (indicator1 g) " ") as [H1|H1]; simpl;
    [|apply IH; intros; apply H; simpl; auto].
  destruct (String.eqb_spec (indicator2 g) " ") as [H2|H2]; simpl;
    [|apply IH; intros; apply H; simpl; auto].
  rewrite (H g (or_introl eq_refl) H1 H2).
  apply IH; intros; apply H; simpl; auto.
Qed.

Lemma first_260_date_first (pre post : list Field) (f : Field) (d : string)
  (rest : list string) :
  (forall g, In g pre -> indicator1 g = " " -> indicator2 g = " " ->
             get_subfields "c" g = []) ->
  indicator1 f = " " -> indicator2 f = " " -> get_subfields "c" f = d :: rest ->
  first_260_date (pre ++ f :: post)
  = Some (Py.strip Py.is_space d, "release_broadcast_date").
Proof.
  intros Hpre H1 H2 Hc; induction pre as [|g pre IH]; simpl.
  - now rewrite H1, H2, Hc.
  - destruct (String.eqb_spec (indicator1 g) " ") as [G1|G1]; simpl;
      [|apply IH; intros; apply Hpre; simpl; auto].
    destruct (String.eqb_spec (indicator2 g) " ") as [G2|G2]; simpl;
      [|apply IH; intros; apply Hpre; simpl; auto].
    rewrite (Hpre g (or_introl eq_refl) G1 G2).
    apply IH; intros; apply Hpre; simpl; auto.
Qed.

Lemma first_264_date_none (indicator : string) (l : list Field) :
  (forall g, In g l -> indicator1 g = " " -> indicator2 g = indicator ->
             get_subfields "c" g = []) ->
  first_264_date indicator l = None.
Proof.
  induction l as [|g l IH]; intros H; simpl; [reflexivity|].
  destruct (String.eqb_spec (indicator1 g) " ") as [H1|H1]; simpl;
    [|apply IH; intros; apply H; simpl; auto].
  destruct (String.eqb_spec (indicator2 g) indicator) as [H2|H2]; simpl;
    [|apply IH; intros; apply H; simpl; auto].
  rewrite (H g (or_introl eq_refl) H1 H2).
  apply IH; intros; apply H; simpl; auto.
Qed.

Lemma first_264_date_some (indicator : string) (l : list Field) (f : Field) :
  In f l -> indicator1 f = " " -> indicator2 f = indicator ->
  get_subfields "c" f <> [] ->
  exists date, first_264_date indicator l = Some (date, qualifier_map indicator).
Proof.
  intros Hin H1 H2 Hc; induction l as [|g l IH]; [destruct Hin|]; simpl.
  destruct Hin as [-> | Hin].
  - rewrite H1, H2, !String.eqb_refl; simpl.
    destruct (get_subfields "c" f) as [|d rest]; [contradiction|].
    eexists; reflexivity.
  - destruct (String.eqb (indicator1 g) " " && String.eqb (indicator2 g) indicator);
      [|now apply IH].
    destruct (get_subfields "c" g) as [|d rest]; [now apply IH|].
    eexists; reflexivity.
Qed.

Lemma first_by_priority_skip (pre post : list string) (indicator : string)
  (l : list Field) :
  (forall j, In j pre -> first_264_date j l = None) ->
  first_by_priority (pre ++ indicator :: post) l
  = match first_264_date indicator l with
    | Some r => Some r
    | None => first_by_priority post l
    end.
Proof.
  intros Hpre; induction pre as [|j pre IH]; simpl; [reflexivity|].
  rewrite (Hpre j (or_introl eq_refl)); apply IH; intros; apply Hpre; simpl; auto.
Qed.

Lemma qualifier_map_priority (indicator : string) :
  In indicator indicator_priority -> qualifier_map indicator <> "".
Proof.
  intros H; repeat destruct H as [<- | H]; try discriminate; destruct H.
Qed.

Lemma get_date_info_264 (dateutil_parse : string -> option string)
  (bib_record : Record) (pre post : list string) (indicator : string)
  (f : Field) :
  (forall g, In g (get_fields "260" bib_record) ->
             indicator1 g = " " -> indicator2 g = " " ->
             get_subfields "c" g = []) ->
  indicator_priority = (pre ++ indicator :: post)%list ->
  (forall j g, In j pre -> In g (get_fields "264" bib_record) ->
               indicator1 g = " " -> indicator2 g = j ->
               get_subfields "c" g = []) ->
  In f (get_fields "264" bib_record) -> indicator1 f = " " ->
  indicator2 f = indicator -> get_subfields "c" f <> [] ->
  exists date,
    get_date_info dateutil_parse bib_record = [(qualifier_map indicator, date)].
Proof.
  intros H260 Hprio Hpre Hin H1 H2 Hc.
  unfold get_date_info, get_date_from_bib.
  rewrite (first_260_date_none _ H260).
  assert (Hex : existsb (fun field => String.eqb (indicator1 field) " ")
                  (get_fields "264" bib_record) = true).
  { apply existsb_exists; exists f; split; [assumption|].
    now rewrite H1, String.eqb_refl. }
  rewrite Hex; cbn [negb].
  rewrite Hprio, first_by_priority_skip
    by (intros j Hj; apply first_264_date_none; intros g Hg; now apply Hpre).
  destruct (first_264_date_some indicator _ f Hin H1 H2 Hc) as (date & ->).
  assert (Hq : qualifier_map indicator <> "").
  { apply qualifier_map_priority; rewrite Hprio; apply in_or_app; simpl; auto. }
  apply String.eqb_neq in Hq; rewrite Hq.
  eexists; reflexivity.
Qed.

(** Claim C1: date resolution priority.  (1) When the 260 fields contain
    one with both indicators blank and a $c, the first such field gives
    the date, qualified [release_broadcast_date], whatever 264 fields the
    record has.  (2) With no such 260 field, blank-first-indicator 264
    fields with a $c and second indicators 1 and 2 give the qualifier
    [distribution_date].  (3) More generally, with no such 260 field the
    qualifier is that of the first second indicator in the order
    2, 1, 4, 0, 3 carried by a blank-first-indicator 264 field with a $c. *)
Theorem get_date_info_priority :
  (forall dateutil_parse bib_record pre post f d rest,
      get_fields "260" bib_record = (pre ++ f :: post)%list ->
      (forall g, In g pre -> indicator1 g = " " -> indicator2 g = " " ->
                 get_subfields "c" g = []) ->
      indicator1 f = " " -> indicator2 f = " " ->
      get_subfields "c" f = d :: rest ->
      get_date_info dateutil_parse bib_record
      = [("release_broadcast_date",
          parse_date dateutil_parse (Py.strip Py.is_space d))])
  /\ (forall dateutil_parse bib_record f1 f2,
      (forall g, In g (get_fields "260" bib_record) ->
                 indicator1 g = " " -> indicator2 g = " " ->
                 get_subfields "c" g = []) ->
      In f1 (get_fields "264" bib_record) -> indicator1 f1 = " " ->
      indicator2 f1 = "1" -> get_subfields "c" f1 <> [] ->
      In f2 (get_fields "264" bib_record) -> indicator1 f2 = " " ->
      indicator2 f2 = "2" -> get_subfields "c" f2 <> [] ->
      exists date,
        get_date_info dateutil_parse bib_record = [("distribution_date", date)])
  /\ (forall dateutil_parse bib_record pre indicator post f,
      (forall g, In g (get_fields "260" bib_record) ->
                 indicator1 g = " " -> indicator2 g = " " ->
                 get_subfields "c" g = []) ->
      indicator_priority = (pre ++ indicator :: post)%list ->
      (forall j g, In j pre -> In g (get_fields "264" bib_record) ->
                   indicator1 g = " " -> indicator2 g = j ->
                   get_subfields "c" g = []) ->
      In f (get_fields "264" bib_record) -> indicator1 f = " " ->
      indicator2 f = indicator -> get_subfields "c" f <> [] ->
      exists date,
        get_date_info dateutil_parse bib_record
        = [(qualifier_map indicator, date)]).
Proof.
  split; [|split].
  - intros dateutil_parse bib_record pre post f d rest H260 Hpre H1 H2 Hc.
    unfold get_date_info, get_date_from_bib.
    rewrite H260, (first_260_date_first pre post f d rest Hpre H1 H2 Hc).
    reflexivity.
  - intros dateutil_parse bib_record f1 f2 H260 _ _ _ _ Hin H1 H2 Hc.
    apply (get_date_info_264 dateutil_parse bib_record [] ["1"; "4"; "0"; "3"]
             "2" f2 H260 eq_refl); try assumption.
    intros j g [].
  - intros dateutil_parse bib_record pre indicator post f.
    apply get_date_info_264.
Qed.

(** Witness for C1: a record with a qualifying 260 and 264 fields
    with second indicators 1 and 2, and the same record without its 260. *)
Lemma get_date_info_priority_witness :
  get_date_info (fun _ => None) date_bib_260
    = [("release_broadcast_date", "[2023]")]
  /\ (exists date, get_date_info (fun _ => None) date_bib_264
                   = [("distribution_date", date)])
  /\ (exists date, get_date_info (fun _ => None) date_bib_264
                   = [(qualifier_map "2", date)]).
Proof.
  split; [|split].
  - rewrite (proj1 get_date_info_priority (fun _ => None) date_bib_260 []
               [] (DataField "260" " " " " [("c", " [2023] ")]) " [2023] " []);
      try reflexivity.
    intros g [].
  - apply (proj1 (proj2 get_date_info_priority) (fun _ => None) date_bib_264
             (DataField "264" " " "1" [("c", "1999.")])
             (DataField "264" " " "2" [("c", "[2000]")]));
      try (simpl; tauto); try reflexivity; try discriminate.
  - apply (proj2 (proj2 get_date_info_priority) (fun _ => None) date_bib_264
             [] "2" ["1"; "4"; "0"; "3"]
             (DataField "264" " " "2" [("c", "[2000]")]));
      try (simpl; tauto); try reflexivity; try discriminate.
Defined.

(** ** Title Composer *)

Lemma truthy_true (s : string) : s <> "" -> truthy s = true.
Proof.
  intros H; unfold truthy; destruct (String.eqb_spec s "") as [E|_];
    [contradiction | reflexivity].
Qed.

Lemma truthy_false (s : string) : s = "" -> truthy s = false.
Proof. intros ->; reflexivity. Qed.

Lemma truthy_join2 (a b : string) : a <> "" -> truthy (Py.join ". " [a; b]) = true.
Proof. intros H; destruct a; [contradiction | reflexivity]. Qed.

Lemma full_main_title_truthy (t : Field) :
  get_first_stripped (get_subfields "a" t) <> "" ->
  truthy (full_main_title t) = true.
Proof.
  intros H; unfold full_main_title.
  destruct (String.eqb _ ""); [now apply truthy_true|].
  destruct (get_first_stripped (get_subfields "a" t)); [contradiction|reflexivity].
Qed.

Lemma main_title_eq (t : Field) :
  (if truthy (get_first_stripped (get_subfields "b" t))
   then Py.join ". " [get_first_stripped (get_subfields "a" t);
                      get_first_stripped (get_subfields "b" t)]
   else get_first_stripped (get_subfields "a" t)) = full_main_title t.
Proof.
  unfold full_main_title, truthy.
  destruct (String.eqb (get_first_stripped (get_subfields "b" t)) ""); reflexivity.
Qed.

(** Claim C2: title composition table.  (1) A title statement whose
    normalized $p and $n are empty and whose $a is not gives exactly
    [{title: main}], [main] being $a with $b appended by [". "] when
    present.  (2) With $a, $p and $n all present the result is
    [{title: "main. name. number", series_title: main,
      episode_title: "name. number"}]. *)
Theorem get_title_info_cases :
  (forall bib_record is_series title_statement,
      record_get "245" bib_record = Some title_statement ->
      get_first_stripped (get_subfields "a" title_statement) <> "" ->
      get_first_stripped (get_subfields "p" title_statement) = "" ->
      get_first_stripped (get_subfields "n" title_statement) = "" ->
      get_title_info bib_record is_series
      = Ok [("title", full_main_title title_statement)])
  /\ (forall bib_record is_series title_statement,
      record_get "245" bib_record = Some title_statement ->
      get_first_stripped (get_subfields "a" title_statement) <> "" ->
      get_first_stripped (get_subfields "p" title_statement) <> "" ->
      get_first_stripped (get_subfields "n" title_statement) <> "" ->
      let main := full_main_title title_statement in
      let name := get_first_stripped (get_subfields "p" title_statement) in
      let number := get_first_stripped (get_subfields "n" title_statement) in
      get_title_info bib_record is_series
      = Ok [("title", main ++ ". " ++ name ++ ". " ++ number);
            ("series_title", main);
            ("episode_title", name ++ ". " ++ number)]).
Proof.
  split; intros bib_record is_series t H245 Ha Hp Hn;
    unfold get_title_info; rewrite H245; cbv zeta;
    rewrite (truthy_true _ Ha); cbn [negb];
    rewrite main_title_eq, (full_main_title_truthy t Ha).
  - rewrite (truthy_false _ Hp), (truthy_false _ Hn).
    destruct is_series; reflexivity.
  - rewrite (truthy_true _ Hp), (truthy_true _ Hn).
    destruct is_series; reflexivity.
Qed.

(** Witness for C2. *)

Lemma get_title_info_cases_witness :
  get_title_info title_bib_main false = Ok [("title", "Main Title")]
  /\ get_title_info title_bib_parts true
     = Ok [("title", "Main Title. remainder. Name of Part. Number of Part");
           ("series_title", "Main Title. remainder");
           ("episode_title", "Name of Part. Number of Part")].
Proof.
  split.
  - apply (proj1 get_title_info_cases title_bib_main false
             (DataField "245" "1" "0" [("a", "Main Title /")]));
      [reflexivity | discriminate | reflexivity | reflexivity].
  - apply (proj2 get_title_info_cases title_bib_parts true
             (DataField "245" "1" "0"
                [("a", "Main Title"); ("b", "remainder :");
                 ("p", "[Name of Part]"); ("n", "Number of Part . ")]));
      [reflexivity | discriminate | discriminate | discriminate].
Defined.

(** Claim C4 (counterexample): a record with a 246 field, first
    indicator 0, second indicator blank and a $a gets no
    [alternative_titles] key. *)
Lemma get_title_info_no_alternative_titles :
  get_title_info title_bib_246 false = Ok [("title", "Main Title")]
  /\ ~ In "alternative_titles" (keys [("title", "Main Title")]).
Proof.
  split; [reflexivity|].
  simpl; intros [H | []]; discriminate.
Qed.

Lemma record_get_drop_246 (tag : string) (bib_record : Record) :
  tag <> "246" -> record_get tag (drop_246 bib_record) = record_get tag bib_record.
Proof.
  intros Htag; induction bib_record as [|f r IH]; simpl; [reflexivity|].
  destruct (String.eqb_spec (field_tag f) "246") as [E|E]; simpl.
  - rewrite IH, E.
    destruct (String.eqb_spec "246" tag) as [E'|E']; [congruence | reflexivity].
  - now rewrite IH.
Qed.

Lemma get_title_info_keys (bib_record : Record) (is_series : bool)
  (titles : dict string) :
  get_title_info bib_record is_series = Ok titles ->
  forall k, In k (keys titles) -> title_key k.
Proof.
  intros H.
  unfold get_title_info in H.
  destruct (record_get "245" bib_record) as [t|]; [|discriminate].
  cbv zeta in H.
  destruct (truthy (get_first_stripped (get_subfields "a" t))); simpl in H;
    [|discriminate].
  rewrite main_title_eq in H.
  destruct (truthy (full_main_title t)), is_series,
    (truthy (get_first_stripped (get_subfields "p" t))),
    (truthy (get_first_stripped (get_subfields "n" t)));
    simpl in H; injection H as <-; simpl; unfold title_key; intros k Hk;
    repeat destruct Hk as [<- | Hk]; auto; destruct Hk.
Qed.

(** Claim C4 (amended): [get_title_info] never produces an
    [alternative_titles] key: every key of its result is [title],
    [series_title] or [episode_title], and the result does not depend on
    the record's 246 fields at all. *)
Theorem get_title_info_ignores_246 :
  (forall bib_record is_series titles,
      get_title_info bib_record is_series = Ok titles ->
      forall k, In k (keys titles) -> title_key k)
  /\ (forall bib_record is_series,
      get_title_info (drop_246 bib_record) is_series
      = get_title_info bib_record is_series).
Proof.
  split.
  - apply get_title_info_keys.
  - intros bib_record is_series; unfold get_title_info, get_record_id.
    rewrite !record_get_drop_246 by discriminate.
    reflexivity.
Qed.

(** Witness for the amended C4. *)
Lemma get_title_info_ignores_246_witness :
  In "title" (keys [("title", "Main Title")]) /\ title_key "title"
  /\ get_title_info (drop_246 title_bib_246) false
     = get_title_info title_bib_246 false.
Proof.
  split; [simpl; now left|split].
  - apply (proj1 get_title_info_ignores_246 title_bib_246 false
             [("title", "Main Title")]); [reflexivity | simpl; now left].
  - apply (proj2 get_title_info_ignores_246).
Defined.

(** Witness for the amended C5. *)
Lemma strip_whitespace_and_punctuation_spec_witness :
  length (strip_whitespace_and_punctuation ["[Name of Part] ."; "abc-"]) = 2
  /\ exists r, nth_error (strip_whitespace_and_punctuation
                            ["[Name of Part] ."; "abc-"]) 0 = Some r
               /\ stripped_form "[Name of Part] ." r.
Proof.
  split.
  - apply (proj1 (strip_whitespace_and_punctuation_spec
                    ["[Name of Part] ."; "abc-"])).
  - apply (proj2 (strip_whitespace_and_punctuation_spec
                    ["[Name of Part] ."; "abc-"]) 0 "[Name of Part] .");
      reflexivity.
Defined.

(** ** Title errors and the Metadata Merger *)

Lemma first_stripped_empty (subfields : list string) :
  subfields = []
  \/ (exists a rest, subfields = a :: rest /\ strip_item a = "") ->
  get_first_stripped subfields = "".
Proof.
  intros [-> | (a & rest & -> & Ha)]; [reflexivity|].
  exact Ha.
Qed.

(** Claim C7: title error conditions and their propagation.  With no
    245 field [get_title_info] raises the missing-title-statement
    [ValueError]; with a 245 field whose $a is absent or whose first $a is
    empty after normalization it raises the missing-main-title
    [ValueError]; both messages carry the record's 001 identifier (or the
    empty string).  Any such error raised inside [get_mams_metadata] is
    its result, with no partial metadata. *)
Theorem get_title_info_errors :
  (forall bib_record is_series,
      record_get "245" bib_record = None ->
      get_title_info bib_record is_series
      = Err (ValueError ("No 245 field found in bib record "
                         ++ get_record_id bib_record ++ ".")))
  /\ (forall bib_record is_series title_statement,
      record_get "245" bib_record = Some title_statement ->
      (get_subfields "a" title_statement = []
       \/ exists a rest, get_subfields "a" title_statement = a :: rest
                         /\ strip_item a = "") ->
      get_title_info bib_record is_series
      = Err (ValueError ("No 245 $a found in bib record "
                         ++ get_record_id bib_record ++ ".")))
  /\ (forall nlp_model dateutil_parse language_map bib_record filemaker_record
             digital_data_record match_asset_uuid e,
      get_title_info bib_record (is_series_production_type filemaker_record)
        = Err e ->
      get_mams_metadata nlp_model dateutil_parse language_map bib_record
        filemaker_record digital_data_record match_asset_uuid = Err e).
Proof.
  split; [|split].
  - intros bib_record is_series H; unfold get_title_info; now rewrite H.
  - intros bib_record is_series t H Ha; unfold get_title_info; rewrite H.
    cbv zeta; now rewrite (first_stripped_empty _ Ha).
  - intros nlp_model dateutil_parse language_map bib_record filemaker_record
      digital_data_record match_asset_uuid e H.
    unfold get_mams_metadata; cbv zeta; now rewrite H.
Qed.

(** Witness for C7. *)
Lemma get_title_info_errors_witness :
  get_title_info [ControlField "001" "9916"] false
    = Err (ValueError "No 245 field found in bib record 9916.")
  /\ get_title_info [ControlField "001" "9917"; DataField "245" "0" "0" []] true
    = Err (ValueError "No 245 $a found in bib record 9917.")
  /\ get_title_info [DataField "245" "0" "0" [("a", " . ")]] false
    = Err (ValueError "No 245 $a found in bib record .")
  /\ get_mams_metadata (fun _ => []) (fun _ => None) []
       [ControlField "001" "9916"] fm_news [] None
    = Err (ValueError "No 245 field found in bib record 9916.").
Proof.
  split; [|split; [|split]].
  - apply (proj1 get_title_info_errors); reflexivity.
  - apply (proj1 (proj2 get_title_info_errors)
             [ControlField "001" "9917"; DataField "245" "0" "0" []] true
             (DataField "245" "0" "0" [])); [reflexivity | now left].
  - apply (proj1 (proj2 get_title_info_errors)
             [DataField "245" "0" "0" [("a", " . ")]] false
             (DataField "245" "0" "0" [("a", " . ")])); [reflexivity|].
    right; exists " . ", []; split; reflexivity.
  - apply (proj2 (proj2 get_title_info_errors)); reflexivity.
Defined.

(** ** Date formatting *)

Lemma remove_char_absent (c : ascii) (s : string) :
  Py.contains_char c s = false -> Py.remove_char c s = s.
Proof.
  induction s as [|d s IH]; simpl; [reflexivity|].
  intros H; apply orb_false_iff in H as [Hcd Hs].
  rewrite Hcd; now rewrite IH.
Qed.

Lemma remove_char_app (c : ascii) (s t : string) :
  Py.remove_char c (s ++ t) = Py.remove_char c s ++ Py.remove_char c t.
Proof.
  induction s as [|d s IH]; simpl; [reflexivity|].
  destruct (Ascii.eqb c d); simpl; now rewrite IH.
Qed.

Lemma contains_char_last (c : ascii) (s : string) :
  Py.contains_char c (s ++ String c "") = true.
Proof.
  induction s as [|d s IH]; simpl; [now rewrite Ascii.eqb_refl|].
  now rewrite IH, orb_true_r.
Qed.

Lemma year_like_normalized (y : string) :
  year_like y ->
  Py.strip Py.is_space (Py.rstrip date_trailing y) = y
  /\ String.length y = 4
  /\ (Py.isdigit y || Py.contains_char "-" y) = true.
Proof.
  intros (a & b & c & d & -> & Hy & _ & _ & Ha & Hd & Ht).
  split; [|split; [reflexivity | now apply orb_true_iff]].
  unfold Py.strip; simpl; rewrite Ht; simpl; rewrite Hd; simpl.
  now rewrite Ha.
Qed.

Lemma parse_date_year_like (dateutil_parse : string -> option string)
  (y : string) :
  year_like y ->
  parse_date dateutil_parse y = y
  /\ parse_date dateutil_parse ("[" ++ y ++ "]") = "[" ++ y ++ "]".
Proof.
  intros Hy.
  destruct (year_like_normalized y Hy) as (Hn & Hlen & Hk).
  destruct Hy as (a & b & c & d & Hyeq & _ & Hl & Hr & _).
  split; unfold parse_date.
  - rewrite Hl; cbn [andb].
    rewrite Hn, Hlen, Hk; reflexivity.
  - assert (Hin : (Py.contains_char "[" ("[" ++ y ++ "]")
                   && Py.contains_char "]" ("[" ++ y ++ "]")) = true).
    { cbn [Py.contains_char String.append]; rewrite Ascii.eqb_refl; cbn [orb andb].
      apply orb_true_iff; right; apply contains_char_last. }
    rewrite Hin.
    assert (Hrm : Py.remove_char "]" (Py.remove_char "[" ("[" ++ y ++ "]")) = y).
    { cbn [String.append Py.remove_char]; rewrite Ascii.eqb_refl.
      rewrite remove_char_app, (remove_char_absent "[" y Hl); simpl.
      rewrite remove_char_app, (remove_char_absent "]" y Hr); simpl.
      apply str_app_nil_r. }
    rewrite Hrm, Hn, Hlen, Hk; reflexivity.
Qed.

(** Claim C9: [parse_date] is idempotent on four-character years (all
    digits, or containing a hyphen, already free of brackets, surrounding
    whitespace and trailing [.,;:!?]), bare or wrapped in square
    brackets; it returns them unchanged, whatever [dateutil] does. *)
Theorem parse_date_idempotent_on_years :
  forall dateutil_parse y x,
    year_like y -> (x = y \/ x = "[" ++ y ++ "]") ->
    parse_date dateutil_parse (parse_date dateutil_parse x)
    = parse_date dateutil_parse x.
Proof.
  intros dateutil_parse y x Hy Hx.
  destruct (parse_date_year_like dateutil_parse y Hy) as [H1 H2].
  destruct Hx as [-> | ->]; [now rewrite !H1 | now rewrite !H2].
Qed.

Lemma year_like_2023 : year_like "2023".
Proof.
  exists "2"%char, "0"%char, "2"%char, "3"%char; repeat split; now left.
Qed.

Lemma year_like_202_ : year_like "202-".
Proof.
  exists "2"%char, "0"%char, "2"%char, "-"%char; repeat split; now right.
Qed.

(** Witness for C9. *)
Lemma parse_date_idempotent_on_years_witness :
  parse_date (fun _ => None) (parse_date (fun _ => None) "2023")
    = parse_date (fun _ => None) "2023"
  /\ parse_date (fun _ => None) (parse_date (fun _ => None) "[202-]")
    = parse_date (fun _ => None) "[202-]".
Proof.
  split.
  - apply (parse_date_idempotent_on_years (fun _ => None) "2023" "2023");
      [apply year_like_2023 | now left].
  - apply (parse_date_idempotent_on_years (fun _ => None) "202-" "[202-]");
      [apply year_like_202_ | right; reflexivity].
Defined.

(** ** Keys of the merged metadata *)

Lemma keys_dict_set {V} (k x : string) (v : V) (d : dict V) :
  In x (keys (dict_set k v d)) <-> In x (keys d) \/ x = k.
Proof.
  unfold dict_set, keys.
  destruct (existsb (fun kv => String.eqb (fst kv) k) d) eqn:E.
  - rewrite map_map; split.
    + intros H; left; apply in_map_iff in H as (kv & Hx & Hin).
      apply in_map_iff; exists kv; split; [|assumption].
      destruct (String.eqb_spec (fst kv) k); simpl in Hx; congruence.
    + intros [H | ->].
      * apply in_map_iff in H as (kv & <- & Hin); apply in_map_iff.
        exists kv; split; [|assumption].
        destruct (String.eqb_spec (fst kv) k); simpl; congruence.
      * apply existsb_exists in E as (kv & Hin & Hk).
        apply in_map_iff; exists kv; split; [|assumption].
        now rewrite Hk.
  - rewrite map_app, in_app_iff; simpl; split; intros [H | H]; auto.
    + destruct H as [H | []]; auto.
Qed.

Lemma keys_dict_update {V} (x : string) (d e : dict V) :
  In x (keys (dict_update d e)) <-> In x (keys d) \/ In x (keys e).
Proof.
  unfold dict_update; revert d; induction e as [|kv e IH]; intros d; simpl.
  - tauto.
  - rewrite IH, keys_dict_set; intuition (subst; auto).
Qed.

Lemma keys_map_vstr (d : dict string) : keys (map_vstr d) = keys d.
Proof. unfold keys, map_vstr; now rewrite map_map. Qed.

Lemma qualifier_map_cases (indicator : string) :
  qualifier_map indicator = "" \/ date_qualifier (qualifier_map indicator).
Proof.
  unfold qualifier_map, date_qualifier.
  repeat match goal with |- context [if String.eqb ?a ?b then _ else _] =>
    destruct (String.eqb a b) end; simpl; tauto.
Qed.

Lemma first_260_date_qualifier (l : list Field) (r : string * string) :
  first_260_date l = Some r -> snd r = "release_broadcast_date".
Proof.
  induction l as [|f l IH]; simpl; [discriminate|].
  destruct (_ && _); [|exact IH].
  destruct (get_subfields "c" f); [exact IH|].
  intros H; injection H as <-; reflexivity.
Qed.

Lemma first_264_date_qualifier (i : string) (l : list Field) (r : string * string) :
  first_264_date i l = Some r -> snd r = qualifier_map i.
Proof.
  induction l as [|f l IH]; simpl; [discriminate|].
  destruct (_ && _); [|exact IH].
  destruct (get_subfields "c" f); [exact IH|].
  intros H; injection H as <-; reflexivity.
Qed.

Lemma first_by_priority_qualifier (is : list string) (l : list Field)
  (r : string * string) :
  first_by_priority is l = Some r -> exists i, snd r = qualifier_map i.
Proof.
  induction is as [|i is IH]; simpl; [discriminate|].
  destruct (first_264_date i l) as [r'|] eqn:E; [|exact IH].
  intros H; injection H as <-; exists i; now apply first_264_date_qualifier in E.
Qed.

Lemma get_date_from_bib_qualifier (bib_record : Record) :
  snd (get_date_from_bib bib_record) = ""
  \/ date_qualifier (snd (get_date_from_bib bib_record)).
Proof.
  unfold get_date_from_bib.
  destruct (first_260_date _) as [r|] eqn:E.
  - right; apply first_260_date_qualifier in E; rewrite E; unfold date_qualifier; simpl; auto.
  - destruct (negb _); [now left|].
    destruct (first_by_priority _ _) as [r|] eqn:F; [|now left].
    apply first_by_priority_qualifier in F as (i & ->).
    apply qualifier_map_cases.
Qed.

Lemma get_date_info_keys (dateutil_parse : string -> option string)
  (bib_record : Record) (k : string) :
  In k (keys (get_date_info dateutil_parse bib_record)) -> date_qualifier k.
Proof.
  unfold get_date_info.
  destruct (get_date_from_bib_qualifier bib_record) as [H | H];
    destruct (get_date_from_bib bib_record) as [date q]; simpl in *.
  - subst q; simpl; intros [<- | []]; unfold date_qualifier; simpl; auto.
  - destruct (String.eqb_spec q "") as [->|_]; simpl; intros [<- | []];
      [unfold date_qualifier; simpl; auto | exact H].
Qed.

(** Claim C10: [get_mams_metadata] adds [match_asset] only for a truthy
    [match_asset_uuid].  Passing the empty string gives the same result
    as passing [None], and that result never has a [match_asset] key;
    a non-empty identifier always gives the key. *)
Theorem get_mams_metadata_match_asset :
  forall nlp_model dateutil_parse language_map bib_record filemaker_record
         digital_data_record,
    get_mams_metadata nlp_model dateutil_parse language_map bib_record
      filemaker_record digital_data_record (Some "")
    = get_mams_metadata nlp_model dateutil_parse language_map bib_record
        filemaker_record digital_data_record None
    /\ (forall metadata,
          get_mams_metadata nlp_model dateutil_parse language_map bib_record
            filemaker_record digital_data_record (Some "") = Ok metadata ->
          ~ In "match_asset" (keys metadata))
    /\ (forall match_asset_uuid metadata,
          match_asset_uuid <> "" ->
          get_mams_metadata nlp_model dateutil_parse language_map bib_record
            filemaker_record digital_data_record (Some match_asset_uuid)
          = Ok metadata ->
          In "match_asset" (keys metadata)).
Proof.
  intros nlp_model dateutil_parse language_map bib_record filemaker_record dd.
  unfold get_mams_metadata; cbv zeta.
  destruct (get_title_info bib_record (is_series_production_type filemaker_record))
    as [titles|e] eqn:T; cbn [bind].
  2:{ split; [reflexivity | split; intros; discriminate]. }
  split; [reflexivity | split].
  - intros metadata H; injection H as <-.
    assert (Hm : forall (M : dict pyval),
               (forall x, In x (keys M) ->
                 In x ["alma_bib_id"; "inventory_id"; "uuid"; "inventory_numbers";
                       "creators"; "language"; "file_name"; "asset_type";
                       "media_type"; "audio_class"]
                 \/ title_key x \/ date_qualifier x) ->
               ~ In "match_asset"
                   (keys (if pyval_eqb (dd_get "file_type" (VStr "") dd) (VStr "DCP")
                          then dict_update M (get_dcp_info dd)
                          else if pyval_eqb (dd_get "file_type" (VStr "") dd)
                                 (VStr "DPX")
                          then dict_update M (get_dpx_info dd) else M))).
    { intros M HM.
      destruct (pyval_eqb _ (VStr "DCP")); [|destruct (pyval_eqb _ (VStr "DPX"))];
        rewrite ?keys_dict_update; intros H;
        [destruct H as [H | H] .. | ];
        try (apply HM in H; not_match_asset);
        simpl in H; intuition discriminate. }
    apply Hm; intros x Hx.
    rewrite !keys_dict_update, !keys_map_vstr in Hx.
    destruct Hx as [[Hx | Hx] | Hx].
    + now left.
    + right; left; exact (get_title_info_keys _ _ _ T x Hx).
    + right; right; exact (get_date_info_keys _ _ x Hx).
  - intros u metadata Hu H; injection H as <-.
    rewrite (truthy_true u Hu).
    assert (Hin : forall (M : dict pyval), In "match_asset" (keys M) ->
              In "match_asset"
                (keys (if pyval_eqb (dd_get "file_type" (VStr "") dd) (VStr "DCP")
                       then dict_update M (get_dcp_info dd)
                       else if pyval_eqb (dd_get "file_type" (VStr "") dd)
                              (VStr "DPX")
                       then dict_update M (get_dpx_info dd) else M))).
    { intros M HM; destruct (pyval_eqb _ (VStr "DCP"));
        [|destruct (pyval_eqb _ (VStr "DPX"))];
        rewrite ?keys_dict_update; auto. }
    apply Hin, keys_dict_set; now right.
Qed.

(** Witness for C10: a DCP asset with the empty and a non-empty
    match-asset identifier. *)
Lemma get_mams_metadata_match_asset_witness :
  get_mams_metadata (fun _ => []) (fun _ => None) [] title_bib_main fm_news
    dd_dcp (Some "")
  = get_mams_metadata (fun _ => []) (fun _ => None) [] title_bib_main fm_news
      dd_dcp None
  /\ In "match_asset"
       (keys (match get_mams_metadata (fun _ => []) (fun _ => None) []
                     title_bib_main fm_news dd_dcp (Some "u-2") with
              | Ok m => m | Err _ => [] end)).
Proof.
  split.
  - apply (proj1 (get_mams_metadata_match_asset (fun _ => []) (fun _ => None) []
                    title_bib_main fm_news dd_dcp)).
  - apply (proj2 (proj2 (get_mams_metadata_match_asset (fun _ => [])
                           (fun _ => None) [] title_bib_main fm_news dd_dcp))
             "u-2"); [discriminate | reflexivity].
Defined.

(** ** Catalog-record filter *)

(** Claim C6 (code bug): [filter_by_inventory_number_and_library] reads
    [get_subfields("b")[0]] and [get_subfields("d")[0]] without a guard,
    so a holding (AVA) field lacking $b or $d raises [IndexError], where
    the sibling extractors ([_get_date_from_bib], [get_record_id]) turn
    an absent field or subfield into a default value. *)
Lemma filter_by_inventory_number_missing_subfield :
  filter_by_inventory_number_and_library
    [[ControlField "001" "9918"; DataField "AVA" " " " " [("d", "DVD123")]]]
    "DVD123" = Err IndexError
  /\ filter_by_inventory_number_and_library
       [[ControlField "001" "9919"; DataField "AVA" " " " " [("b", "FTVA")]]]
       "DVD123" = Err IndexError
  /\ filter_by_inventory_number_and_library
       [[ControlField "001" "9920";
         DataField "AVA" " " " " [("b", "FTVA"); ("d", "DVD123 T")]]]
       "DVD123"
     = Ok [[ControlField "001" "9920";
            DataField "AVA" " " " " [("b", "FTVA"); ("d", "DVD123 T")]]]
  /\ get_date_info (fun _ => None) [ControlField "001" "9918";
                                    DataField "260" " " " " []]
     = [("release_broadcast_date", "")].
Proof. repeat split; reflexivity. Qed.

(* ================================================================== *)
(** * Further properties of the modelled code *)

(** ** Dict lemmas *)

Lemma dict_get_cons {V} (k k' : string) (v : V) (d : dict V) :
  dict_get k ((k', v) :: d) = if String.eqb k' k then Some v else dict_get k d.
Proof. unfold dict_get; simpl; destruct (String.eqb k' k); reflexivity. Qed.

Lemma dict_get_nil {V} (k : string) : dict_get k ([] : dict V) = None.
Proof. reflexivity. Qed.

Lemma dict_get_absent {V} (k : string) (d : dict V) :
  existsb (fun kv => String.eqb (fst kv) k) d = false -> dict_get k d = None.
Proof.
  induction d as [|[k' v] d IH]; simpl; [reflexivity|].
  intros H; apply orb_false_iff in H as [H1 H2].
  rewrite dict_get_cons, H1; now apply IH.
Qed.

Lemma dict_get_app_one {V} (k k' : string) (v : V) (d : dict V) :
  dict_get k (d ++ [(k', v)])%list
  = match dict_get k d with
    | Some w => Some w
    | None => if String.eqb k' k then Some v else None
    end.
Proof.
  induction d as [|[k0 v0] d IH]; simpl; [now rewrite dict_get_cons|].
  rewrite !dict_get_cons; destruct (String.eqb k0 k); [reflexivity | exact IH].
Qed.

Lemma dict_get_set_eq {V} (k : string) (v : V) (d : dict V) :
  dict_get k (dict_set k v d) = Some v.
Proof.
  unfold dict_set.
  destruct (existsb (fun kv => String.eqb (fst kv) k) d) eqn:E.
  - induction d as [|[k0 v0] d IH]; simpl in *; [discriminate|].
    destruct (String.eqb k0 k) eqn:K; simpl.
    + rewrite dict_get_cons, String.eqb_refl; reflexivity.
    + rewrite dict_get_cons, K; now apply IH.
  - rewrite dict_get_app_one, (dict_get_absent k d E), String.eqb_refl.
    reflexivity.
Qed.

Lemma dict_get_set_neq {V} (k k' : string) (v : V) (d : dict V) :
  k' <> k -> dict_get k (dict_set k' v d) = dict_get k d.
Proof.
  intros Hne; unfold dict_set.
  assert (Hk : String.eqb k' k = false) by now apply String.eqb_neq.
  destruct (existsb (fun kv => String.eqb (fst kv) k') d).
  - induction d as [|[k0 v0] d IH]; simpl; [reflexivity|].
    destruct (String.eqb_spec k0 k') as [->|K].
    + rewrite !dict_get_cons, Hk; exact IH.
    + rewrite !dict_get_cons; destruct (String.eqb k0 k); [reflexivity | exact IH].
  - rewrite dict_get_app_one, Hk; destruct (dict_get k d); reflexivity.
Qed.

Lemma keys_dict_set_nodup {V} (k : string) (v : V) (d : dict V) :
  NoDup (keys d) -> NoDup (keys (dict_set k v d)).
Proof.
  unfold dict_set, keys.
  destruct (existsb (fun kv => String.eqb (fst kv) k) d) eqn:E; intros H.
  - rewrite map_map.
    replace (map (fun x => fst (if String.eqb (fst x) k then (k, v) else x)) d)
      with (map fst d); [exact H|].
    apply map_ext; intros [k0 v0]; simpl.
    destruct (String.eqb_spec k0 k); simpl; congruence.
  - rewrite map_app; simpl.
    apply NoDup_app; [exact H | constructor; [intros []|constructor] |].
    intros x Hx [Hkx | []]; subst x.
    apply in_map_iff in Hx as ([k0 v0] & Hk0 & Hin); simpl in Hk0; subst.
    assert (existsb (fun kv => String.eqb (fst kv) k) d = true)
      by (apply existsb_exists; exists (k, v0); simpl; split;
          [assumption | apply String.eqb_refl]).
    congruence.
Qed.

Lemma dict_get_update {V} (k : string) (d e : dict V) :
  NoDup (keys e) ->
  dict_get k (dict_update d e)
  = match dict_get k e with Some v => Some v | None => dict_get k d end.
Proof.
  unfold dict_update; revert d; induction e as [|[k1 v1] e IH]; intros d Hnd;
    simpl; [reflexivity|].
  inversion Hnd as [|? ? Hnin Hnd']; subst.
  rewrite (IH _ Hnd'), dict_get_cons.
  destruct (String.eqb_spec k1 k) as [->|Hne].
  - rewrite dict_get_set_eq.
    assert (Hnone : dict_get k e = None).
    { apply dict_get_absent; destruct (existsb _ e) eqn:E; [|reflexivity].
      apply existsb_exists in E as ([k0 v0] & Hin & Hk); simpl in Hk.
      apply String.eqb_eq in Hk; subst; exfalso; apply Hnin.
      apply in_map_iff; now exists (k, v0). }
    now rewrite Hnone.
  - rewrite (dict_get_set_neq k k1 v1 d Hne); reflexivity.
Qed.


Lemma dict_get_in_keys {V} (k : string) (d : dict V) (v : V) :
  dict_get k d = Some v -> In k (keys d).
Proof.
  induction d as [|[k0 v0] d IH]; simpl; [discriminate|].
  rewrite dict_get_cons; destruct (String.eqb_spec k0 k); auto.
Qed.

Lemma dict_get_not_in_keys {V} (k : string) (d : dict V) :
  ~ In k (keys d) -> dict_get k d = None.
Proof.
  destruct (dict_get k d) eqn:E; [|reflexivity].
  intros H; exfalso; apply H; eapply dict_get_in_keys; exact E.
Qed.

(** ** Title Composer: shape of the bundle *)

Lemma prefix_app (s t : string) : String.prefix s (s ++ t) = true.
Proof.
  induction s as [|c s IH]; simpl; [destruct t; reflexivity|].
  destruct (ascii_dec c c) as [_|n]; [exact IH | now destruct n].
Qed.

Lemma prefix_refl (s : string) : String.prefix s s = true.
Proof. rewrite <- (str_app_nil_r s) at 2; apply prefix_app. Qed.

(** [get_title_info], when it succeeds, returns a bundle with distinct
    keys that always has a [title] beginning with the main title
    (245 $a, plus $b when present); [series_title] is present exactly
    when [episode_title] is, and is then the main title. *)
Theorem get_title_info_shape :
  forall bib_record is_series title_statement titles,
    record_get "245" bib_record = Some title_statement ->
    get_title_info bib_record is_series = Ok titles ->
    NoDup (keys titles)
    /\ (exists title, dict_get "title" titles = Some title
                      /\ String.prefix (full_main_title title_statement) title
                         = true)
    /\ (In "series_title" (keys titles) <-> In "episode_title" (keys titles))
    /\ (forall s, dict_get "series_title" titles = Some s ->
                  s = full_main_title title_statement).
Proof.
  intros bib_record is_series t titles H245 H.
  unfold get_title_info in H; rewrite H245 in H; cbv zeta in H.
  destruct (truthy (get_first_stripped (get_subfields "a" t))) eqn:Ha;
    simpl in H; [|discriminate].
  assert (Ha' : get_first_stripped (get_subfields "a" t) <> "").
  { intros E; rewrite E in Ha; discriminate. }
  rewrite main_title_eq, (full_main_title_truthy t Ha') in H.
  destruct is_series, (truthy (get_first_stripped (get_subfields "p" t))),
    (truthy (get_first_stripped (get_subfields "n" t)));
    simpl in H; unfold dict_set in H; simpl in H; injection H as <-;
    (split; [repeat constructor; simpl; intuition discriminate|]);
    (split; [eexists; split; [reflexivity|]; cbn [Py.join];
             first [apply prefix_app | apply prefix_refl] |]);
    (split; [simpl; intuition discriminate |]);
    intros s Hs; simpl in Hs;
    first [discriminate | injection Hs as <-; reflexivity].
Qed.

(** Witness for [get_title_info_shape]. *)
Lemma get_title_info_shape_witness :
  NoDup (keys [("title", "Main Title. Part 2"); ("series_title", "Main Title");
               ("episode_title", "Part 2")]).
Proof.
  apply (proj1 (get_title_info_shape title_bib_number true
                  (DataField "245" "1" "0" [("a", "Main Title"); ("n", "Part 2.")])
                  _ eq_refl eq_refl)).
Defined.

(** The [is_series] flag only matters for a title statement with a
    number of part ($n) and no name of part ($p): otherwise
    [get_title_info] gives the same result (bundle or error) for both
    values of the flag. *)
Theorem get_title_info_series_flag :
  forall bib_record,
    (forall title_statement,
        record_get "245" bib_record = Some title_statement ->
        get_first_stripped (get_subfields "p" title_statement) <> ""
        \/ get_first_stripped (get_subfields "n" title_statement) = "") ->
    get_title_info bib_record true = get_title_info bib_record false.
Proof.
  intros bib_record H.
  unfold get_title_info.
  destruct (record_get "245" bib_record) as [t|] eqn:E; [|reflexivity].
  cbv zeta; destruct (H t eq_refl) as [Hp | Hn].
  - rewrite (truthy_true _ Hp); simpl.
    destruct (negb _); [reflexivity|].
    destruct (truthy _), (truthy _); reflexivity.
  - rewrite (truthy_false _ Hn); simpl.
    destruct (negb _); [reflexivity|].
    destruct (truthy _), (truthy _); reflexivity.
Qed.

(** Witness for [get_title_info_series_flag]. *)
Lemma get_title_info_series_flag_witness :
  get_title_info title_bib_parts true = get_title_info title_bib_parts false.
Proof.
  apply get_title_info_series_flag.
  intros t Ht; injection Ht as <-; left; discriminate.
Defined.

(** ** Text Normalizer: idempotence *)

Lemma lstrip_starts_outside (p : ascii -> bool) (s : string) :
  starts_outside p s -> Py.lstrip p s = s.
Proof. intros [-> | (c & t & -> & Hc)]; simpl; [reflexivity | now rewrite Hc]. Qed.

Lemma strip_item_idempotent (s : string) :
  strip_item (strip_item s) = strip_item s.
Proof.
  destruct (strip_item_stripped_form s) as (pre & post & _ & _ & _ & Hst & Hend).
  set (r := strip_item s) in *.
  unfold strip_item at 1, Py.strip.
  rewrite (rstrip_ends_outside _ r Hend).
  rewrite (rstrip_ends_outside bracket_or_space r)
    by (eapply ends_outside_weaken; [apply bracket_or_space_punct | exact Hend]).
  now apply lstrip_starts_outside.
Qed.

(** Normalizing twice is normalizing once: applying
    [strip_whitespace_and_punctuation] to its own output changes
    nothing. *)
Theorem strip_whitespace_and_punctuation_idempotent (items : list string) :
  strip_whitespace_and_punctuation (strip_whitespace_and_punctuation items)
  = strip_whitespace_and_punctuation items.
Proof.
  unfold strip_whitespace_and_punctuation; rewrite map_map.
  apply map_ext, strip_item_idempotent.
Qed.

(** ** Date formatting: trailing punctuation and brackets *)

Lemma contains_char_app (c : ascii) (s t : string) :
  Py.contains_char c (s ++ t) = Py.contains_char c s || Py.contains_char c t.
Proof.
  induction s as [|d s IH]; simpl; [reflexivity|].
  now rewrite IH, orb_assoc.
Qed.

Lemma rstrip_app_stripped (p : ascii -> bool) (s : string) (c : ascii) :
  p c = true -> Py.rstrip p (s ++ String c "") = Py.rstrip p s.
Proof.
  intros Hc; induction s as [|d s IH]; simpl; [now rewrite Hc|].
  now rewrite IH.
Qed.

(** Appending one of [.,;:!?] to a raw date string never changes what
    [parse_date] returns, whatever [dateutil] does. *)
Theorem parse_date_trailing_punctuation :
  forall dateutil_parse s c,
    date_trailing c = true ->
    parse_date dateutil_parse (s ++ String c "") = parse_date dateutil_parse s.
Proof.
  intros dateutil_parse s c Hc.
  assert (Hl : Ascii.eqb "[" c = false /\ Ascii.eqb "]" c = false).
  { revert Hc; unfold date_trailing, Py.in_chars; simpl.
    destruct (Ascii.eqb_spec c "."); [subst; now split|].
    destruct (Ascii.eqb_spec c ","); [subst; now split|].
    destruct (Ascii.eqb_spec c ";"); [subst; now split|].
    destruct (Ascii.eqb_spec c ":"); [subst; now split|].
    destruct (Ascii.eqb_spec c "!"); [subst; now split|].
    destruct (Ascii.eqb_spec c "?"); [subst; now split|].
    simpl; discriminate. }
  destruct Hl as [Hl Hr].
  unfold parse_date.
  rewrite !contains_char_app; cbn [Py.contains_char]; rewrite Hl, Hr;
    cbn [orb]; rewrite !orb_false_r.
  destruct (Py.contains_char "[" s && Py.contains_char "]" s).
  - rewrite !remove_char_app; cbn [Py.remove_char]; rewrite Hl;
      cbn [Py.remove_char]; rewrite Hr.
    now rewrite rstrip_app_stripped.
  - now rewrite rstrip_app_stripped.
Qed.

(** Witness for [parse_date_trailing_punctuation]. *)
Lemma parse_date_trailing_punctuation_witness :
  parse_date (fun _ => None) ("[2023]" ++ ".") = parse_date (fun _ => None) "[2023]".
Proof. apply parse_date_trailing_punctuation; reflexivity. Defined.

(** A raw date containing both [[] and []] comes back wrapped in square
    brackets, whatever [dateutil] does. *)
Theorem parse_date_keeps_brackets :
  forall dateutil_parse s,
    Py.contains_char "[" s = true -> Py.contains_char "]" s = true ->
    exists m, parse_date dateutil_parse s = "[" ++ m ++ "]".
Proof.
  intros dateutil_parse s Hl Hr; unfold parse_date; rewrite Hl, Hr; simpl.
  destruct (_ && _); [eexists; reflexivity|].
  destruct (dateutil_parse _); eexists; reflexivity.
Qed.

(** Witness for [parse_date_keeps_brackets]. *)
Lemma parse_date_keeps_brackets_witness :
  exists m, parse_date (fun _ => Some "2023-04-05") "[April 5, 2023]." = "[" ++ m ++ "]".
Proof. apply parse_date_keeps_brackets; reflexivity. Defined.

(** ** Date Resolver: shape and default *)


(** With no 260 field with blank indicators and a $c, and no 264 field
    with a blank first indicator, a second indicator among 2, 1, 4, 0, 3
    and a $c, [get_date_info] falls back to [release_broadcast_date] with
    the formatted empty string. *)
Theorem get_date_info_no_date :
  forall dateutil_parse bib_record,
    (forall g, In g (get_fields "260" bib_record) ->
               indicator1 g = " " -> indicator2 g = " " ->
               get_subfields "c" g = []) ->
    (forall j g, In j indicator_priority -> In g (get_fields "264" bib_record) ->
                 indicator1 g = " " -> indicator2 g = j ->
                 get_subfields "c" g = []) ->
    get_date_info dateutil_parse bib_record
    = [("release_broadcast_date", parse_date dateutil_parse "")].
Proof.
  intros dateutil_parse bib_record H260 H264.
  unfold get_date_info, get_date_from_bib.
  rewrite (first_260_date_none _ H260).
  assert (Hp : forall is, incl is indicator_priority ->
                 first_by_priority is (get_fields "264" bib_record) = None).
  { induction is as [|j is IH]; intros Hincl; simpl; [reflexivity|].
    rewrite first_264_date_none
      by (intros g Hg; apply H264; [apply Hincl; now left | exact Hg]).
    apply IH; intros x Hx; apply Hincl; now right. }
  rewrite (Hp indicator_priority (incl_refl _)).
  destruct (negb _); reflexivity.
Qed.

(** Witness for [get_date_info_no_date]. *)
Lemma get_date_info_no_date_witness :
  get_date_info (fun _ => None) date_bib_other
  = [("release_broadcast_date", parse_date (fun _ => None) "")].
Proof.
  apply get_date_info_no_date.
  - intros g Hg H1 H2; simpl in Hg.
    destruct Hg as [<- | []]; discriminate.
  - intros j g Hj Hg H1 H2; simpl in Hg.
    destruct Hg as [<- | [<- | []]]; simpl in H2; subst j; [|reflexivity].
    simpl in Hj; intuition discriminate.
Defined.

(** ** Production-type segments *)

Lemma lower_char_idempotent (c : ascii) : Py.lower_char (Py.lower_char c) = Py.lower_char c.
Proof. destruct c as [[] [] [] [] [] [] [] []]; reflexivity. Qed.

Lemma lower_idempotent (s : string) : Py.lower (Py.lower s) = Py.lower s.
Proof.
  induction s as [|c s IH]; [reflexivity|].
  cbn [Py.lower]; now rewrite lower_char_idempotent, IH.
Qed.

Lemma lower_char_cr (c : ascii) :
  Ascii.eqb "013" (Py.lower_char c) = Ascii.eqb "013" c.
Proof. destruct c as [[] [] [] [] [] [] [] []]; reflexivity. Qed.

Lemma count_char_lower_cr (s : string) :
  count_char "013" (Py.lower s) = count_char "013" s.
Proof.
  induction s as [|c s IH]; [reflexivity|].
  cbn [count_char Py.lower]; now rewrite lower_char_cr, IH.
Qed.

Lemma split_length (sep : ascii) (s : string) :
  length (Py.split sep s) = S (count_char sep s).
Proof.
  induction s as [|c s IH]; [reflexivity|].
  cbn [Py.split count_char]; rewrite (Ascii.eqb_sym sep c).
  destruct (Ascii.eqb c sep); cbn [length Nat.add]; [now rewrite IH|].
  destruct (Py.split sep s) as [|h t]; simpl in *; [discriminate | exact IH].
Qed.

Lemma strip_stripped (p : ascii -> bool) (s : string) :
  starts_outside p (Py.strip p s) /\ ends_outside p (Py.strip p s).
Proof.
  unfold Py.strip.
  destruct (rstrip_spec p s) as (_ & _ & _ & Hend).
  destruct (lstrip_spec p (Py.rstrip p s)) as (_ & _ & _ & Hst).
  split; [exact Hst | now apply lstrip_ends_outside].
Qed.

(** [cleanup_production_type] returns one segment more than the
    production type has carriage returns, and no segment starts or ends
    with whitespace. *)
Theorem cleanup_production_type_segments (production_type : string) :
  length (cleanup_production_type production_type)
    = S (count_char "013" production_type)
  /\ forall segment, In segment (cleanup_production_type production_type) ->
     starts_outside Py.is_space segment /\ ends_outside Py.is_space segment.
Proof.
  unfold cleanup_production_type; split.
  - now rewrite length_map, split_length, count_char_lower_cr.
  - intros segment Hin; apply in_map_iff in Hin as (x & <- & _).
    apply strip_stripped.
Qed.

(** Series classification ignores ASCII case: lower-casing the
    production type first changes nothing. *)
Theorem is_series_production_type_case_insensitive (fm : FMRecord) :
  is_series_production_type
    {| inventory_id := inventory_id fm; inventory_no := inventory_no fm;
       production_type := Py.lower (production_type fm) |}
  = is_series_production_type fm.
Proof.
  unfold is_series_production_type, cleanup_production_type; simpl.
  now rewrite lower_idempotent.
Qed.

(** ** Language code *)

Lemma substring_length (n m : nat) (s : string) :
  (n + m <= String.length s)%nat -> String.length (substring n m s) = m.
Proof.
  revert n m; induction s as [|c s IH]; intros n m H; simpl in *.
  - assert (n = 0 /\ m = 0)%nat as [-> ->] by lia; reflexivity.
  - destruct n as [|n].
    + destruct m as [|m]; simpl; [reflexivity|].
      f_equal; apply (IH 0%nat m); lia.
    + apply IH; lia.
Qed.

(** The language code read from a record is either empty or three
    characters long; it is empty, and the language name is the table's
    entry for the empty code (or empty), when the record has no 008 field
    or its 008 data is not 40 characters long. *)
Theorem get_language_code_from_bib_shape :
  (forall bib_record,
      get_language_code_from_bib bib_record = ""
      \/ String.length (get_language_code_from_bib bib_record) = 3)
  /\ (forall language_map bib_record,
      (forall f, record_get "008" bib_record = Some f ->
                 String.length (field_data f) <> 40) ->
      get_language_code_from_bib bib_record = ""
      /\ get_language_name language_map bib_record
         = match dict_get "" language_map with Some n => n | None => "" end).
Proof.
  split.
  - intros bib_record; unfold get_language_code_from_bib.
    destruct (record_get "008" bib_record) as [f|]; [|now left].
    destruct (truthy (field_data f) && (String.length (field_data f) =? 40)%nat)
      eqn:E; [|now left].
    right; apply andb_true_iff in E as [_ E]; apply Nat.eqb_eq in E.
    apply substring_length; lia.
  - intros language_map bib_record H.
    assert (Hc : get_language_code_from_bib bib_record = "").
    { unfold get_language_code_from_bib.
      destruct (record_get "008" bib_record) as [f|]; [|reflexivity].
      specialize (H f eq_refl).
      apply Nat.eqb_neq in H; rewrite H, andb_false_r; reflexivity. }
    split; [exact Hc|]; unfold get_language_name; now rewrite Hc.
Qed.

(** Witness for [get_language_code_from_bib_shape]. *)
Lemma get_language_code_from_bib_shape_witness :
  get_language_name [("", "Undetermined")] [ControlField "008" "short"]
  = "Undetermined".
Proof.
  apply (proj2 get_language_code_from_bib_shape [("", "Undetermined")]
           [ControlField "008" "short"]).
  intros f Hf; injection Hf as <-; simpl; discriminate.
Defined.

(** ** Creators *)

Lemma creator_string_of_none (source_string : string) (phrases : list string) :
  (forall phrase, In phrase phrases ->
                  Py.find (Py.lower source_string) phrase = None) ->
  creator_string_of source_string phrases = "".
Proof.
  induction phrases as [|ph phrases IH]; intros H; simpl; [reflexivity|].
  rewrite (H ph (or_introl eq_refl)); apply IH; intros; apply H; now right.
Qed.

(** A creator statement none of whose [;]-separated segments contains an
    attribution phrase (in particular a record with no 245 field or no
    245 $c) yields no creators, and the NER model is not consulted. *)
Theorem get_creators_no_phrase :
  forall bib_record (model : NerModel),
    (forall segment phrase,
        In segment (get_creator_info_from_bib bib_record) ->
        In phrase attribution_phrases ->
        Py.find (Py.lower segment) phrase = None) ->
    get_creators bib_record model = []
    /\ get_creators bib_record model = get_creators bib_record (fun _ => []).
Proof.
  intros bib_record model H.
  assert (Hall : forall m : NerModel, get_creators bib_record m = []).
  { intros m; unfold get_creators.
    induction (get_creator_info_from_bib bib_record) as [|seg segs IH];
      simpl; [reflexivity|].
    unfold parse_creators.
    rewrite (creator_string_of_none seg attribution_phrases)
      by (intros ph Hph; apply H; [now left | exact Hph]).
    simpl; apply IH; intros; apply H; [now right | assumption]. }
  now rewrite !Hall.
Qed.

(** Witness for [get_creators_no_phrase]. *)
Lemma get_creators_no_phrase_witness :
  get_creators
    [ControlField "001" "9931";
     DataField "245" "1" "0" [("a", "Newsreel"); ("c", "Produced by Acme")]]
    (fun _ => [("Acme", "PERSON")]) = [].
Proof.
  apply (proj1 (get_creators_no_phrase
    [ControlField "001" "9931";
     DataField "245" "1" "0" [("a", "Newsreel"); ("c", "Produced by Acme")]]
    (fun _ => [("Acme", "PERSON")]) ltac:(
      intros seg ph Hs Hp; vm_compute in Hs; destruct Hs as [<- | []];
      vm_compute in Hp;
      repeat (destruct Hp as [<- | Hp]; [vm_compute; reflexivity |]);
      destruct Hp))).
Defined.

(** Every creator [get_creators] returns is a [PERSON] entity the model
    found in the non-empty text that follows an attribution phrase in one
    segment of the record's creator statement. *)
Theorem get_creators_sound :
  forall bib_record (model : NerModel) creator,
    In creator (get_creators bib_record model) ->
    exists segment,
      In segment (get_creator_info_from_bib bib_record)
      /\ creator_string_of segment attribution_phrases <> ""
      /\ In (creator, "PERSON")
            (model (creator_string_of segment attribution_phrases)).
Proof.
  intros bib_record model creator H.
  unfold get_creators in H; apply in_flat_map in H as (segment & Hseg & H).
  exists segment; split; [exact Hseg|].
  unfold parse_creators in H.
  destruct (truthy (creator_string_of segment attribution_phrases)) eqn:T;
    simpl in H; [|destruct H].
  split; [intros E; rewrite E in T; discriminate|].
  apply in_map_iff in H as ([name label] & Hn & Hin); simpl in Hn; subst name.
  apply filter_In in Hin as [Hin Hl]; simpl in Hl.
  apply String.eqb_eq in Hl; subst label; exact Hin.
Qed.

(** Witness for [get_creators_sound]. *)
Lemma get_creators_sound_witness :
  exists segment,
    In segment ["Directed by Jane Doe"]
    /\ creator_string_of segment attribution_phrases <> ""
    /\ In ("Jane Doe", "PERSON")
          ((fun _ => [("Jane Doe", "PERSON"); ("Paris", "GPE")])
             (creator_string_of segment attribution_phrases)).
Proof.
  apply (get_creators_sound
    [ControlField "001" "9932";
     DataField "245" "1" "0" [("a", "Film"); ("c", "Directed by Jane Doe")]]
    (fun _ => [("Jane Doe", "PERSON"); ("Paris", "GPE")]) "Jane Doe").
  vm_compute; left; reflexivity.
Defined.

(** ** Inventory-number filter *)

Lemma record_matches_ok (inventory_number : string) (fields_ava : list Field)
  (keep : bool) :
  record_matches inventory_number fields_ava = Ok keep ->
  keep = existsb (ava_field_matches inventory_number) fields_ava.
Proof.
  induction fields_ava as [|f rest IH]; simpl; [congruence|].
  unfold ava_field_matches.
  destruct (get_subfields "b" f) as [|b bs]; [discriminate|].
  destruct (get_subfields "d" f) as [|d ds]; [discriminate|].
  destruct (String.eqb (Py.lower b) "ftva"
            && is_inventory_number_match inventory_number d); simpl;
    [congruence | exact IH].
Qed.

Lemma record_matches_total (inventory_number : string) (fields_ava : list Field) :
  (forall f, In f fields_ava ->
             get_subfields "b" f <> [] /\ get_subfields "d" f <> []) ->
  record_matches inventory_number fields_ava
  = Ok (existsb (ava_field_matches inventory_number) fields_ava).
Proof.
  induction fields_ava as [|f rest IH]; intros H; simpl; [reflexivity|].
  destruct (H f (or_introl eq_refl)) as [Hb Hd]; unfold ava_field_matches.
  destruct (get_subfields "b" f) as [|b bs]; [contradiction|].
  destruct (get_subfields "d" f) as [|d ds]; [contradiction|].
  destruct (String.eqb (Py.lower b) "ftva"
            && is_inventory_number_match inventory_number d); simpl;
    [reflexivity|].
  apply IH; intros; apply H; now right.
Qed.

(** Whenever [filter_by_inventory_number_and_library] returns, it returns
    the input records, in their order, that have an AVA field whose first
    $b is [ftva] in any case and whose first $d matches the inventory
    number; and it does return (raises no [IndexError]) when every AVA
    field of every record has a $b and a $d. *)
Theorem filter_by_inventory_number_and_library_spec :
  forall records inventory_number,
    (forall out,
        filter_by_inventory_number_and_library records inventory_number = Ok out ->
        out = filter (fun r => existsb (ava_field_matches inventory_number)
                                 (get_fields "AVA" r)) records)
    /\ ((forall r f, In r records -> In f (get_fields "AVA" r) ->
                     get_subfields "b" f <> [] /\ get_subfields "d" f <> []) ->
        filter_by_inventory_number_and_library records inventory_number
        = Ok (filter (fun r => existsb (ava_field_matches inventory_number)
                                 (get_fields "AVA" r)) records)).
Proof.
  intros records inventory_number; induction records as [|r rest [IH1 IH2]];
    simpl; [split; [congruence | reflexivity]|].
  split.
  - intros out H.
    destruct (record_matches inventory_number (get_fields "AVA" r)) as [keep|e]
      eqn:K; cbn [bind] in H; [|discriminate].
    destruct (filter_by_inventory_number_and_library rest inventory_number)
      as [others|e] eqn:F; cbn [bind] in H; [|discriminate].
    injection H as <-; rewrite <- (record_matches_ok _ _ _ K), <- (IH1 _ eq_refl).
    reflexivity.
  - intros H.
    rewrite record_matches_total by (intros f Hf; apply (H r f); auto).
    cbn [bind]; rewrite IH2 by (intros r' f Hr Hf; apply (H r' f); auto).
    reflexivity.
Qed.

(** Witness for [filter_by_inventory_number_and_library_spec]. *)
Lemma filter_by_inventory_number_and_library_spec_witness :
  filter_by_inventory_number_and_library ava_records "DVD123"
  = Ok (filter (fun r => existsb (ava_field_matches "DVD123")
                           (get_fields "AVA" r)) ava_records)
  /\ [[ControlField "001" "9941";
       DataField "AVA" " " " " [("b", "FTVA"); ("d", "DVD123 T")]]]
     = filter (fun r => existsb (ava_field_matches "DVD123")
                          (get_fields "AVA" r)) ava_records.
Proof.
  split.
  - apply (proj2 (filter_by_inventory_number_and_library_spec ava_records
                    "DVD123")).
    intros r f Hr Hf; vm_compute in Hr;
      destruct Hr as [<- | [<- | []]]; vm_compute in Hf;
      destruct Hf as [<- | []]; split; discriminate.
  - apply (proj1 (filter_by_inventory_number_and_library_spec ava_records
                    "DVD123")).
    vm_compute; reflexivity.
Defined.

(** ** Merged metadata *)

Lemma pyval_eqb_true (v w : pyval) : pyval_eqb v w = true -> v = w.
Proof.
  destruct v as [s|n|l], w as [t|m|l']; simpl; try discriminate.
  - intros H; apply String.eqb_eq in H; now subst.
  - intros H; apply Nat.eqb_eq in H; now subst.
  - revert l'; induction l as [|x l IH]; intros [|y l'] H; simpl in H;
      try discriminate; [reflexivity|].
    apply andb_true_iff in H as [Hx H]; apply String.eqb_eq in Hx; subst y.
    specialize (IH l' H); injection IH as ->; reflexivity.
Qed.

Lemma get_title_info_nodup (bib_record : Record) (is_series : bool)
  (titles : dict string) :
  get_title_info bib_record is_series = Ok titles -> NoDup (keys titles).
Proof.
  intros H; unfold get_title_info in H.
  destruct (record_get "245" bib_record) as [t|]; [|discriminate].
  cbv zeta in H.
  destruct (truthy (get_first_stripped (get_subfields "a" t))); simpl in H;
    [|discriminate].
  rewrite main_title_eq in H.
  destruct (truthy (full_main_title t)), is_series,
    (truthy (get_first_stripped (get_subfields "p" t))),
    (truthy (get_first_stripped (get_subfields "n" t)));
    simpl in H; unfold dict_set in H; simpl in H; injection H as <-;
    repeat constructor; simpl; intuition discriminate.
Qed.

Lemma get_date_info_nodup (dateutil_parse : string -> option string)
  (bib_record : Record) : NoDup (keys (get_date_info dateutil_parse bib_record)).
Proof.
  unfold get_date_info; destruct (get_date_from_bib bib_record) as [date q].
  repeat constructor; simpl; tauto.
Qed.

Lemma nodup_map_vstr (d : dict string) :
  NoDup (keys d) -> NoDup (keys (map_vstr d)).
Proof. now rewrite keys_map_vstr. Qed.

(** A lookup in the merged metadata before the file-type step, of a key
    that neither the titles, the date information nor [match_asset] set. *)
Lemma merged_get_base (k : string) (base : dict pyval) (titles dates : dict string)
  (match_asset_uuid : option string) :
  NoDup (keys titles) -> NoDup (keys dates) ->
  ~ In k (keys titles) -> ~ In k (keys dates) -> k <> "match_asset" ->
  dict_get k
    (match match_asset_uuid with
     | Some u => if truthy u
                 then dict_set "match_asset" (VStr u)
                        (dict_update (dict_update base (map_vstr titles))
                           (map_vstr dates))
                 else dict_update (dict_update base (map_vstr titles))
                        (map_vstr dates)
     | None => dict_update (dict_update base (map_vstr titles)) (map_vstr dates)
     end)
  = dict_get k base.
Proof.
  intros Ht Hd Kt Kd Km.
  assert (E : dict_get k (dict_update (dict_update base (map_vstr titles))
                            (map_vstr dates)) = dict_get k base).
  { rewrite dict_get_update by now apply nodup_map_vstr.
    rewrite (dict_get_not_in_keys k (map_vstr dates)) by now rewrite keys_map_vstr.
    rewrite dict_get_update by now apply nodup_map_vstr.
    rewrite (dict_get_not_in_keys k (map_vstr titles)) by now rewrite keys_map_vstr.
    reflexivity. }
  destruct match_asset_uuid as [u|]; [destruct (truthy u)|];
    rewrite ?dict_get_set_neq by congruence; exact E.
Qed.





Lemma file_type_step_cases (dd metadata : dict pyval) :
  dict_get "file_name" metadata = Some (get_file_name dd) ->
  dict_get "folder_name" metadata = None ->
  dict_get "sub_folder_name" metadata = None ->
  let result :=
    if pyval_eqb (dd_get "file_type" (VStr "") dd) (VStr "DCP")
    then dict_update metadata (get_dcp_info dd)
    else if pyval_eqb (dd_get "file_type" (VStr "") dd) (VStr "DPX")
    then dict_update metadata (get_dpx_info dd) else metadata in
  (dd_get "file_type" (VStr "") dd = VStr "DCP" ->
     dict_get "file_name" result = Some (VStr "")
     /\ dict_get "folder_name" result = Some (get_folder_name dd)
     /\ dict_get "sub_folder_name" result = Some (get_sub_folder_name dd))
  /\ (dd_get "file_type" (VStr "") dd = VStr "DPX" ->
     dict_get "file_name" result = Some (VStr "")
     /\ dict_get "folder_name" result = Some (get_folder_name dd)
     /\ dict_get "sub_folder_name" result = None)
  /\ (dd_get "file_type" (VStr "") dd <> VStr "DCP" ->
      dd_get "file_type" (VStr "") dd <> VStr "DPX" ->
     dict_get "file_name" result = Some (get_file_name dd)
     /\ dict_get "folder_name" result = None
     /\ dict_get "sub_folder_name" result = None).
Proof.
  intros F Fo S result; subst result.
  assert (Ndcp : NoDup (keys (get_dcp_info dd)))
    by (repeat constructor; simpl; intuition discriminate).
  assert (Ndpx : NoDup (keys (get_dpx_info dd)))
    by (repeat constructor; simpl; intuition discriminate).
  split; [|split].
  - intros Hft; rewrite Hft.
    replace (pyval_eqb (VStr "DCP") (VStr "DCP")) with true by reflexivity.
    rewrite !dict_get_update by exact Ndcp; repeat split; reflexivity.
  - intros Hft; rewrite Hft.
    replace (pyval_eqb (VStr "DPX") (VStr "DCP")) with false by reflexivity.
    replace (pyval_eqb (VStr "DPX") (VStr "DPX")) with true by reflexivity.
    rewrite !dict_get_update by exact Ndpx; repeat split; [reflexivity ..|].
    exact S.
  - intros H1 H2.
    destruct (pyval_eqb _ (VStr "DCP")) eqn:E1;
      [apply pyval_eqb_true in E1; contradiction|].
    destruct (pyval_eqb _ (VStr "DPX")) eqn:E2;
      [apply pyval_eqb_true in E2; contradiction|].
    auto.
Qed.

(** The digital-data file type decides the file entries of the merged
    metadata: for a DCP the file name is empty and the folder and
    sub-folder names come from the digital-data record; for a DPX the
    file name is empty, the folder name comes from the record and there
    is no sub-folder name; for any other type the file name is the
    record's and there is neither a folder nor a sub-folder name. *)
Theorem get_mams_metadata_file_type :
  forall nlp_model dateutil_parse language_map bib_record filemaker_record
         digital_data_record match_asset_uuid metadata,
    get_mams_metadata nlp_model dateutil_parse language_map bib_record
      filemaker_record digital_data_record match_asset_uuid = Ok metadata ->
    let file_type := dd_get "file_type" (VStr "") digital_data_record in
    (file_type = VStr "DCP" ->
       dict_get "file_name" metadata = Some (VStr "")
       /\ dict_get "folder_name" metadata
          = Some (get_folder_name digital_data_record)
       /\ dict_get "sub_folder_name" metadata
          = Some (get_sub_folder_name digital_data_record))
    /\ (file_type = VStr "DPX" ->
       dict_get "file_name" metadata = Some (VStr "")
       /\ dict_get "folder_name" metadata
          = Some (get_folder_name digital_data_record)
       /\ dict_get "sub_folder_name" metadata = None)
    /\ (file_type <> VStr "DCP" -> file_type <> VStr "DPX" ->
       dict_get "file_name" metadata = Some (get_file_name digital_data_record)
       /\ dict_get "folder_name" metadata = None
       /\ dict_get "sub_folder_name" metadata = None).
Proof.
  intros nlp_model dateutil_parse language_map bib_record fm dd u metadata H
    file_type; subst file_type.
  unfold get_mams_metadata in H; cbv zeta in H.
  destruct (get_title_info bib_record (is_series_production_type fm))
    as [titles|e] eqn:T; cbn [bind] in H; [|discriminate].
  pose proof (f_equal (fun r => match r with Ok m => m | Err _ => metadata end) H)
    as E; cbv beta iota in E; subst metadata.
  pose proof (get_title_info_nodup _ _ _ T) as NT.
  pose proof (get_date_info_nodup dateutil_parse bib_record) as ND.
  pose proof (get_title_info_keys _ _ _ T) as KT.
  pose proof (get_date_info_keys dateutil_parse bib_record) as KD.
  apply file_type_step_cases;
    (rewrite merged_get_base;
     [reflexivity | exact NT | exact ND
     | intros Hk; specialize (KT _ Hk); key_distinct
     | intros Hk; specialize (KD _ Hk); key_distinct
     | key_distinct]).
Qed.

(** Witness for [get_mams_metadata_file_type]. *)
Lemma get_mams_metadata_file_type_witness :
  dict_get "folder_name"
    (match get_mams_metadata (fun _ => []) (fun _ => None) []
             title_bib_number fm_news dd_dcp (Some "u-2") with
     | Ok m => m | Err _ => [] end)
  = Some (VStr "PKG").
Proof.
  destruct (get_mams_metadata_file_type (fun _ => []) (fun _ => None) []
              title_bib_number fm_news dd_dcp (Some "u-2") _ eq_refl)
    as (Hdcp & _ & _).
  exact (proj1 (proj2 (Hdcp eq_refl))).
Defined.
